(** * Paginated sync-job orchestration: scheduler, page-sync worker, failure classifier

    A shallow embedding of the sync core of the connectors:

    - [Worker.syncUsers]: the handler of [sync-users-page]
      (apps/monday/src/inngest/functions/users/sync-users.ts);
    - [Scheduler.scheduleUserSync]: the cron handler of
      [schedule-user-sync-jobs];
    - [Classifier.transformOutput]: the [unauthorizedMiddleware] output hook,
      of which only the test-suite is available.

    Asynchronous handlers are embedded as computations in a small
    writer/exception monad: the writer part records, in order, every call the
    handler makes to a collaborator (database, remote page fetcher, elba
    client, event emission); the exception part is a JavaScript [throw].
    JavaScript numbers that the code uses as page cursors and epoch
    milliseconds are integers, embedded as [Z].

    One run of a handler is one attempt: the retries, the priority and the
    concurrency limit of a function are options handed to the inngest
    runtime, kept here as [Worker.config]. [step.run] is embedded as the run
    of its body, and the delivery of the events a handler sends as
    [Worker.deliver]. The remote fetcher and the database answer as the
    [world] says, the fetcher possibly with a rejection; the calls to the
    elba client resolve to void. *)

From Stdlib Require Import ZArith Lia List.
From stdpp Require Import base option list strings gmap fin_maps.
Import ListNotations.

Local Open Scope string_scope.
Local Open Scope list_scope.
Local Open Scope Z_scope.

(** ** JavaScript values and errors *)

Module Js.

(** Primitive values, as they occur in event payloads. *)
Inductive value :=
| Undefined
| Null
| Bool (b : bool)
| Number (n : Z)
| Str (s : string).

#[global] Instance value_eq_dec : EqDecision value.
Proof. solve_decision. Defined.

(** Error objects. [response_status] is [error.response?.status]: [None] when
    the error carries no response.
    - [MondayError]: the class declared next to the worker
      ([response?: Response]);
    - [RequestError]: [@octokit/request-error], as built in the middleware
      test and tested in apps/github/src/app/setup/route.ts;
    - [NonRetriableError]: inngest's terminal error, with its [cause]. *)
#[local] Set Warnings "-register-all".
Inductive error :=
| Error (message : string)
| RangeError (message : string)
| MondayError (message : string) (response_status : option Z)
| RequestError (message : string) (status : Z) (response_status : option Z)
| NonRetriableError (message : string) (cause : option error).

(** [error instanceof NonRetriableError]. *)
Definition is_non_retriable (e : error) : bool :=
  match e with NonRetriableError _ _ => true | _ => false end.

(** [error.cause]. *)
Definition cause (e : error) : option error :=
  match e with NonRetriableError _ c => c | _ => None end.

(** ToBoolean on a [number | null]: [null] and [0] are falsy. *)
Definition truthy (n : option Z) : bool :=
  match n with
  | None => false
  | Some c => negb (c =? 0)
  end.

End Js.

(** ** [Date]: time values, [new Date(_)] and [toISOString] *)

Module Date.

(** A [Date] object holds a time value in milliseconds since the epoch, or
    NaN (an invalid date). *)
Inductive t :=
| Valid (ms : Z)
| Invalid.

Definition maxTime : Z := 8640000000000000.
Definition msPerDay : Z := 86400000.

(** [new Date(n)] for a number [n]: TimeClip. *)
Definition of_number (n : Z) : t :=
  if Z.abs n <=? maxTime then Valid n else Invalid.

(** [new Date(d)] for a [Date] [d]: same time value. *)
Definition of_date (d : t) : t := d.

(** Civil date (year, month 1..12, day 1..31) of a day number counted from
    1970-01-01, proleptic Gregorian calendar. *)
Definition civil_of_days (days : Z) : Z * Z * Z :=
  let z := days + 719468 in
  let era := z / 146097 in
  let doe := z - era * 146097 in
  let yoe := (doe - doe / 1460 + doe / 36524 - doe / 146096) / 365 in
  let doy := doe - (365 * yoe + yoe / 4 - yoe / 100) in
  let mp := (5 * doy + 2) / 153 in
  let d := doy - (153 * mp + 2) / 5 + 1 in
  let m := if mp <? 10 then mp + 3 else mp - 9 in
  let y := yoe + era * 400 + (if m <=? 2 then 1 else 0) in
  (y, m, d).

(** Day number of a civil date: the way back from [civil_of_days]. *)
Definition days_of_civil (y m d : Z) : Z :=
  let y' := y - (if m <=? 2 then 1 else 0) in
  let era := y' / 400 in
  let yoe := y' - era * 400 in
  let mp := if 2 <? m then m - 3 else m + 9 in
  let doy := (153 * mp + 2) / 5 + d - 1 in
  let doe := yoe * 365 + yoe / 4 - yoe / 100 + doy in
  era * 146097 + doe - 719468.

(** The UTC fields of a time value. *)
Record fields := {
  year : Z;
  month : Z;
  day : Z;
  hours : Z;
  minutes : Z;
  seconds : Z;
  milliseconds : Z;
}.

Definition fields_of_ms (ms : Z) : fields :=
  let tod := ms mod msPerDay in
  let '(y, m, d) := civil_of_days (ms / msPerDay) in
  {| year := y; month := m; day := d;
     hours := tod / 3600000;
     minutes := tod / 60000 mod 60;
     seconds := tod / 1000 mod 60;
     milliseconds := tod mod 1000 |}.

(** The time value of UTC fields: the way back from [fields_of_ms]. *)
Definition ms_of_fields (f : fields) : Z :=
  days_of_civil (year f) (month f) (day f) * msPerDay
  + hours f * 3600000 + minutes f * 60000 + seconds f * 1000 + milliseconds f.

(** The ranges the fields of a time value lie in; the year fits six digits. *)
Definition in_range (f : fields) : Prop :=
  -999999 <= year f <= 999999 /\ 1 <= month f <= 12 /\ 1 <= day f <= 31 /\
  0 <= hours f <= 23 /\ 0 <= minutes f <= 59 /\ 0 <= seconds f <= 59 /\
  0 <= milliseconds f <= 999.

Definition digit (d : Z) : Ascii.ascii := Ascii.ascii_of_nat (48 + Z.to_nat d).

(** The [n] low decimal digits of [z], zero padded. *)
Fixpoint digits (n : nat) (z : Z) : string :=
  match n with
  | O => ""
  | S k => digits k (z / 10) +:+ String (digit (z mod 10)) ""
  end.

(** Years 0..9999 print on four digits, the others signed on six. *)
Definition year_string (y : Z) : string :=
  if (0 <=? y) && (y <=? 9999) then digits 4 y
  else if y <? 0 then "-" +:+ digits 6 (- y)
  else "+" +:+ digits 6 y.

(** [YYYY-MM-DDTHH:mm:ss.sssZ] *)
Definition render (f : fields) : string :=
  year_string (year f) +:+ "-" +:+ digits 2 (month f) +:+ "-" +:+ digits 2 (day f) +:+ "T"
  +:+ digits 2 (hours f) +:+ ":" +:+ digits 2 (minutes f) +:+ ":"
  +:+ digits 2 (seconds f) +:+ "." +:+ digits 3 (milliseconds f) +:+ "Z".

Definition iso_of_ms (ms : Z) : string := render (fields_of_ms ms).

(** [d.toISOString()]: throws a RangeError on an invalid date. *)
Definition toISOString (d : t) : Js.error + string :=
  match d with
  | Valid ms => inr (iso_of_ms ms)
  | Invalid => inl (Js.RangeError "Invalid time value")
  end.

End Date.


(** ** Handlers as computations that log their calls and may throw *)

Module Effect.

Section Monad.
Context {C : Type}.

(** A computation returns the calls it made so far, and either the error it
    threw or its value. *)
Definition M (A : Type) : Type := list C * (Js.error + A).

Definition ret {A} (a : A) : M A := ([], inr a).
Definition throw {A} (e : Js.error) : M A := ([], inl e).

(** One call to a collaborator, answered by [r]. *)
Definition perform {A} (c : C) (r : Js.error + A) : M A := ([c], r).

(** [await m; k]: nothing of [k] runs once [m] has thrown. *)
Definition bind {A B} (m : M A) (k : A -> M B) : M B :=
  match m with
  | (t, inl e) => (t, inl e)
  | (t, inr a) => let '(t', r) := k a in (t ++ t', r)
  end.

Definition calls {A} (m : M A) : list C := m.1.
Definition outcome {A} (m : M A) : Js.error + A := m.2.
End Monad.

Arguments M : clear implicits.

Module Import Notations.
Notation "x <- m ;; k" := (bind m (fun x => k))
  (at level 100, m at next level, right associativity,
   format "'[v' x  <-  m  ;; '/' k ']'").
Notation "m ;;; k" := (bind m (fun _ => k))
  (at level 100, right associativity).
End Notations.

End Effect.
Import Effect.Notations.

(** ** The elba SDK: client options, environment, users *)

Module Elba.

(** The options an [Elba] client is built with. *)
Record Options := {
  organisationId : string;
  sourceId : string;
  apiKey : string;
  baseUrl : string;
  region : string;
}.

(** The [env] entries the connectors read. *)
Record Env := {
  ELBA_SOURCE_ID : string;
  ELBA_API_KEY : string;
  ELBA_API_BASE_URL : string;
}.

(** The elba [User]. *)
Record User := {
  id : string;
  displayName : string;
  email : string;
  additionalEmails : list string;
}.

End Elba.

(** ** The page-sync worker (monday connector) *)

Module Worker.

(** [event.data] of ['monday/users.page_sync.requested']. *)
Record SynchronizeUsers := {
  organisationId : string;
  region : string;
  isFirstSync : bool;
  syncStartedAt : Z;
  page : option Z;
}.

Record Event := {
  name : string;
  data : SynchronizeUsers;
}.

(** The fields of a [MondayUser] that the worker reads. *)
Record MondayUser := {
  mu_id : string;
  mu_name : string;
  mu_email : string;
}.

Definition formatElbaUser (user : MondayUser) : Elba.User :=
  {| Elba.id := mu_id user;
     Elba.displayName := mu_name user;
     Elba.email := mu_email user;
     Elba.additionalEmails := [] |}.

(** What [getUsers] resolves to: [result.data.users] and [result.nextPage]. *)
Record UsersData := { users : list MondayUser }.
Record GetUsersResult := {
  result_data : UsersData;
  nextPage : option Z;
}.

(** A row of the [Organisation] table, with the columns the worker uses. *)
Record OrganisationRow := {
  org_id : string;
  org_token : string;
}.

(** The row shape selected by [select({ token: Organisation.token })]. *)
Record TokenRow := { token : string }.

(** The collaborators as one invocation sees them: the environment, the
    [Organisation] table, and the remote page fetcher, which resolves to a
    page or rejects with an error. The elba client calls resolve to void. *)
Record world := {
  env : Elba.Env;
  organisations : list OrganisationRow;
  getUsers : string -> option Z -> Js.error + GetUsersResult;
}.

Inductive call :=
| DbSelectToken (organisationId : string)
| GetUsers (token : string) (page : option Z)
| ElbaUsersUpdate (elba : Elba.Options) (users : list Elba.User)
| ElbaUsersDelete (elba : Elba.Options) (syncedBefore : string)
| SendEvent (stepId : string) (event : Event).

Abbreviation M := (Effect.M call).

(** [db.select({ token }).from(Organisation).where(eq(Organisation.id, id))]. *)
Definition select_token (w : world) (organisationId : string) : list TokenRow :=
  map (fun r => {| token := org_token r |})
      (filter (fun r => org_id r = organisationId) (organisations w)).

Definition db_select_token (w : world) (organisationId : string) : M (list TokenRow) :=
  Effect.perform (DbSelectToken organisationId) (inr (select_token w organisationId)).

Definition call_getUsers (w : world) (token : string) (page : option Z) : M GetUsersResult :=
  Effect.perform (GetUsers token page) (getUsers w token page).

Definition elba_users_update (elba : Elba.Options) (users : list Elba.User) : M unit :=
  Effect.perform (ElbaUsersUpdate elba users) (inr tt).

Definition elba_users_delete (elba : Elba.Options) (syncedBefore : string) : M unit :=
  Effect.perform (ElbaUsersDelete elba syncedBefore) (inr tt).

(** [step.run(id, body)] runs [body]; [step.sendEvent(id, event)] emits. *)
Definition step_run {A} (stepId : string) (body : M A) : M A := body.

Definition step_sendEvent (stepId : string) (event : Event) : M unit :=
  Effect.perform (SendEvent stepId event) (inr tt).

(** The function-level configuration given to [inngest.createFunction]. *)
Record Config := {
  config_id : string;
  priority_run : string;
  concurrency_key : string;
  concurrency_limit : Z;
  retries : Z;
  trigger_event : string;
}.

Definition config : Config :=
  {| config_id := "sync-users-page";
     priority_run := "event.data.isFirstSync ? 600 : 0";
     concurrency_key := "event.data.organisationId";
     concurrency_limit := 1;
     retries := 3;
     trigger_event := "monday/users.page_sync.requested" |}.

(** What the handler returns. *)
Record Report := { status : string }.

(** [{ ...event.data, page: nextPage }] *)
Definition with_page (d : SynchronizeUsers) (nextPage : option Z) : SynchronizeUsers :=
  {| organisationId := organisationId d;
     region := region d;
     isFirstSync := isFirstSync d;
     syncStartedAt := syncStartedAt d;
     page := nextPage |}.

(** The handler of [syncUsers]. *)
Definition syncUsers (w : world) (event : Event) : M Report :=
  let organisationId := organisationId (data event) in
  let page := page (data event) in
  let region := region (data event) in
  let syncStartedAt := Date.of_number (syncStartedAt (data event)) in
  let elba :=
    {| Elba.organisationId := organisationId;
       Elba.sourceId := Elba.ELBA_SOURCE_ID (env w);
       Elba.apiKey := Elba.ELBA_API_KEY (env w);
       Elba.baseUrl := Elba.ELBA_API_BASE_URL (env w);
       Elba.region := region |} in
  tok <- step_run "get-token" (
    rows <- db_select_token w organisationId ;;
    match rows with
    | [] =>
        Effect.throw (Js.NonRetriableError
          ("Could not retrieve organisation with id=" +:+ organisationId) None)
    | organisation :: _ => Effect.ret organisation
    end) ;;
  nextPage <- step_run "list-users" (
    result <- call_getUsers w (token tok) page ;;
    (if (0 <? Z.of_nat (length (users (result_data result))))
     then elba_users_update elba (map formatElbaUser (users (result_data result)))
     else Effect.ret tt) ;;;
    Effect.ret (nextPage result)) ;;
  if Js.truthy nextPage then
    step_sendEvent "sync-users-page"
      {| name := "monday/users.page_sync.requested";
         data := with_page (data event) nextPage |} ;;;
    Effect.ret {| status := "ongoing" |}
  else
    step_run "finalize" (
      syncedBefore <- ([], Date.toISOString (Date.of_date syncStartedAt)) ;;
      elba_users_delete elba syncedBefore) ;;;
    Effect.ret {| status := "completed" |}.

(** *** The events of one logical sync, delivered one after the other *)

Definition emitted (t : list call) : list Event :=
  omap (fun c => match c with SendEvent _ ev => Some ev | _ => None end) t.

(** The runtime delivers queued events in order to the function whose
    trigger they name; the events an invocation sends join the queue.
    [fuel] bounds the number of deliveries. Each delivery is listed with the
    event delivered and the run of the handler on it. *)
Fixpoint deliver (fuel : nat) (w : world) (queue : list Event) : list (Event * M Report) :=
  match fuel, queue with
  | S k, ev :: rest =>
      if decide (name ev = trigger_event config) then
        let r := syncUsers w ev in
        (ev, r) :: deliver k w (rest ++ emitted (Effect.calls r))
      else deliver k w rest
  | _, _ => []
  end.

(** All the calls of a sequence of deliveries, in order. *)
Definition all_calls (runs : list (Event * M Report)) : list call :=
  concat (map (fun er => Effect.calls er.2) runs).

(** *** Vocabulary for the statements *)

Definition is_update (c : call) : bool :=
  match c with ElbaUsersUpdate _ _ => true | _ => false end.
Definition is_delete (c : call) : bool :=
  match c with ElbaUsersDelete _ _ => true | _ => false end.
Definition is_send (c : call) : bool :=
  match c with SendEvent _ _ => true | _ => false end.
Definition is_fetch (c : call) : bool :=
  match c with GetUsers _ _ => true | _ => false end.

(** The batches sent to [elba.users.update], in order. *)
Definition update_batches (t : list call) : list (list Elba.User) :=
  omap (fun c => match c with ElbaUsersUpdate _ us => Some us | _ => None end) t.

(** The [syncedBefore] arguments of the [elba.users.delete] calls, in order. *)
Definition delete_args (t : list call) : list string :=
  omap (fun c => match c with ElbaUsersDelete _ s => Some s | _ => None end) t.

(** The client an invocation on payload [d] builds. *)
Definition elba_of (w : world) (d : SynchronizeUsers) : Elba.Options :=
  {| Elba.organisationId := organisationId d;
     Elba.sourceId := Elba.ELBA_SOURCE_ID (env w);
     Elba.apiKey := Elba.ELBA_API_KEY (env w);
     Elba.baseUrl := Elba.ELBA_API_BASE_URL (env w);
     Elba.region := region d |}.

(** The update call made for a fetched page: none for an empty page. *)
Definition update_of (w : world) (d : SynchronizeUsers) (r : GetUsersResult) : list call :=
  match users (result_data r) with
  | [] => []
  | _ :: _ => [ElbaUsersUpdate (elba_of w d) (map formatElbaUser (users (result_data r)))]
  end.

(** The continuation event for payload [d] and cursor [nextPage]. *)
Definition continuation (d : SynchronizeUsers) (nextPage : option Z) : Event :=
  {| name := "monday/users.page_sync.requested"; data := with_page d nextPage |}.

(** What an invocation on payload [d] does once the page step has returned
    the cursor [nextPage]: the calls it makes and how it ends. *)
Definition after_page (w : world) (d : SynchronizeUsers) (nextPage : option Z)
  : M Report :=
  if Js.truthy nextPage then
    ([SendEvent "sync-users-page" (continuation d nextPage)], inr {| status := "ongoing" |})
  else
    match Date.toISOString (Date.of_number (syncStartedAt d)) with
    | inl e => ([], inl e)
    | inr syncedBefore =>
        ([ElbaUsersDelete (elba_of w d) syncedBefore], inr {| status := "completed" |})
    end.

(** The events delivered along a chain of pages, starting with [ev]. *)
Fixpoint chain (ev : Event) (pages : list GetUsersResult) : list Event :=
  match pages with
  | [] => []
  | r :: rest => ev :: chain (continuation (data ev) (nextPage r)) rest
  end.

(** The payload [d] belongs to the same logical sync as [d0]: it differs
    at most by its cursor. *)
Definition same_sync (d0 d : SynchronizeUsers) : Prop :=
  organisationId d = organisationId d0 /\
  region d = region d0 /\
  isFirstSync d = isFirstSync d0 /\
  syncStartedAt d = syncStartedAt d0.

(** A delivery that goes on: no delete call, and the report "ongoing". *)
Definition keeps_going (er : Event * M Report) : Prop :=
  delete_args (Effect.calls er.2) = [] /\
  Effect.outcome er.2 = inr {| status := "ongoing" |}.

(** A delivery that ends the sync of payload [d]: its last call, and only
    delete call, is the delete for the watermark of [d], and the report is
    "completed". *)
Definition finalizes (w : world) (d : SynchronizeUsers) (er : Event * M Report) : Prop :=
  (exists t, Effect.calls er.2
             = t ++ [ElbaUsersDelete (elba_of w d) (Date.iso_of_ms (syncStartedAt d))]
             /\ delete_args t = []) /\
  Effect.outcome er.2 = inr {| status := "completed" |}.

(** The normalized batch of a page, when the page has records. *)
Definition batch_of (r : GetUsersResult) : option (list Elba.User) :=
  match users (result_data r) with
  | [] => None
  | _ :: _ => Some (map formatElbaUser (users (result_data r)))
  end.

(** The organisation has no row in the table. *)
Definition no_credential (w : world) (organisationId : string) : Prop :=
  Forall (fun r => org_id r <> organisationId) (organisations w).

(** The remote data reached from cursor [p] with token [tok] is the chain
    [pages]: each page but the last carries a cursor that the worker follows
    (a truthy one), and that cursor fetches the next page; the last page
    carries none. *)
Fixpoint spans (w : world) (tok : string) (p : option Z) (pages : list GetUsersResult)
  : Prop :=
  match pages with
  | [] => False
  | r :: rest =>
      getUsers w tok p = inr r /\
      match rest with
      | [] => Js.truthy (nextPage r) = false
      | _ :: _ => Js.truthy (nextPage r) = true /\ spans w tok (nextPage r) rest
      end
  end.

(** The same chain when a next-page cursor is any value other than [null]. *)
Fixpoint spans_non_null (w : world) (tok : string) (p : option Z)
    (pages : list GetUsersResult) : Prop :=
  match pages with
  | [] => False
  | r :: rest =>
      getUsers w tok p = inr r /\
      match rest with
      | [] => nextPage r = None
      | _ :: _ => nextPage r <> None /\ spans_non_null w tok (nextPage r) rest
      end
  end.

End Worker.

(** ** The sync scheduler (dropbox connector) *)

Module Scheduler.

(** A row returned by [getOrganisationsToSync], with the column the
    scheduler reads. *)
Record OrganisationToSync := { organisationId : string }.

(** An event to send: its name and the object literal given as [data]. *)
Record Event := {
  name : string;
  data : gmap string Js.value;
}.

(** What the handler reads from outside: the resolution of
    [getOrganisationsToSync()] and the clock at [Date.now()]. *)
Record world := {
  getOrganisationsToSync : Js.error + list OrganisationToSync;
  now : Z;
}.

Inductive call :=
| GetOrganisationsToSync
| SendEvent (stepId : string) (events : list Event).

Abbreviation M := (Effect.M call).

Definition step_sendEvent (stepId : string) (events : list Event) : M unit :=
  Effect.perform (SendEvent stepId events) (inr tt).

Record Report := { organisations : list OrganisationToSync }.

(** The handler of [scheduleUserSync]. *)
Definition scheduleUserSync (w : world) : M Report :=
  organisations <- Effect.perform GetOrganisationsToSync (getOrganisationsToSync w) ;;
  let syncStartedAt := now w in
  (if (0 <? Z.of_nat (length organisations))
   then
     step_sendEvent "run-user-sync-jobs"
       (map (fun o =>
               {| name := "dropbox/users.sync_page.triggered";
                  data := {[ "organisationId" := Js.Str (organisationId o);
                             "isFirstSync" := Js.Bool false;
                             "syncStartedAt" := Js.Number syncStartedAt ]} |})
            organisations)
   else Effect.ret tt) ;;;
  Effect.ret {| organisations := organisations |}.

(** Every event sent, over all [sendEvent] calls, in order. *)
Definition emitted (t : list call) : list Event :=
  concat (omap (fun c => match c with SendEvent _ evs => Some evs | _ => None end) t).

(** [data.key] on an event payload; a missing property reads as undefined. *)
Definition property (d : gmap string Js.value) (key : string) : Js.value :=
  default Js.Undefined (d !! key).

End Scheduler.

(** ** The failure classifier (github connector) *)

Module Classifier.

(** A row of the [organisation] table of the github connector. *)
Record Organisation := {
  id : string;
  region : string;
  installationId : Z;
  accountLogin : string;
}.

(** [ctx.event.data] of the wrapped invocation, as far as the classifier
    uses it. *)
Record EventData := {
  data_organisationId : string;
  data_region : string;
}.

(** The wrapped output: [result.error], the other fields of [result], and
    the other fields of the context. *)
Record Result (D : Type) := {
  result_fields : D;
  error : option Js.error;
}.
Record Context (R D : Type) := {
  context_fields : R;
  result : Result D;
}.
Arguments result_fields {D}.
Arguments error {D}.
Arguments Build_Result {D}.
Arguments context_fields {R D}.
Arguments result {R D}.
Arguments Build_Context {R D}.

Inductive call :=
| ElbaConnectionStatusUpdate (elba : Elba.Options) (hasError : bool)
| DbDeleteOrganisation (organisationId : string).

(** Modelled from the spec: an authorization rejection is an error that
    carries an HTTP response of status 401. For a [RequestError] this is the
    test [error instanceof RequestError && error.response?.status === 401] of
    apps/github/src/app/setup/route.ts; a [MondayError] carries its response
    in the same way. *)
Definition is_unauthorized (e : Js.error) : bool :=
  match e with
  | Js.RequestError _ _ (Some s) => s =? 401
  | Js.MondayError _ (Some s) => s =? 401
  | _ => false
  end.

(** [db.delete(Organisation).where(eq(Organisation.id, organisationId))]. *)
Definition delete_organisation (organisationId : string) (db : list Organisation)
  : list Organisation :=
  filter (fun o => id o ≠ organisationId) db.

(** [db.select().from(Organisation).where(eq(Organisation.id, organisationId))]. *)
Definition select_organisation (organisationId : string) (db : list Organisation)
  : list Organisation :=
  filter (fun o => id o = organisationId) db.

(** What one run of the hook yields: the calls made, the table afterwards,
    and the transformed context ([None] for [undefined]: no transformation). *)
Record Run (R D : Type) := {
  calls : list call;
  db_after : list Organisation;
  output : option (Context R D);
}.
Arguments calls {R D}.
Arguments db_after {R D}.
Arguments output {R D}.
Arguments Build_Run {R D}.

(** Modelled from the spec: the [transformOutput] hook of
    [unauthorizedMiddleware], whose implementation is missing from the
    sources (its test-suite is present). After the wrapped function has run,
    inspect the carried error. On an authorization rejection: mark the
    organisation's connection as errored, remove the organisation record,
    and replace the error by a terminal error with the original as cause.
    Otherwise the result passes through: no call, no transformation.
    [message] is the text of the terminal error, which the spec leaves open. *)
Definition transformOutput {R D : Type} (env : Elba.Env) (message : string)
    (data : EventData) (db : list Organisation) (ctx : Context R D) : Run R D :=
  match error (result ctx) with
  | Some e =>
      if is_unauthorized e then
        let elba :=
          {| Elba.organisationId := data_organisationId data;
             Elba.sourceId := Elba.ELBA_SOURCE_ID env;
             Elba.apiKey := Elba.ELBA_API_KEY env;
             Elba.baseUrl := Elba.ELBA_API_BASE_URL env;
             Elba.region := data_region data |} in
        {| calls := [ElbaConnectionStatusUpdate elba true;
                     DbDeleteOrganisation (data_organisationId data)];
           db_after := delete_organisation (data_organisationId data) db;
           output :=
             Some {| context_fields := context_fields ctx;
                     result :=
                       {| result_fields := result_fields (result ctx);
                          error := Some (Js.NonRetriableError message (Some e)) |} |} |}
      else {| calls := []; db_after := db; output := None |}
  | None => {| calls := []; db_after := db; output := None |}
  end.

(** The output the runtime goes on with: the context itself when the hook
    returned [undefined]. *)
Definition effective_output {R D : Type} (ctx : Context R D) (r : Run R D) : Context R D :=
  default ctx (output r).

Definition is_status_update (c : call) : bool :=
  match c with ElbaConnectionStatusUpdate _ _ => true | _ => false end.
Definition is_db_delete (c : call) : bool :=
  match c with DbDeleteOrganisation _ => true | _ => false end.

End Classifier.


(** ** Sample data *)

Module Sample.

Definition env : Elba.Env :=
  {| Elba.ELBA_SOURCE_ID := "source-id";
     Elba.ELBA_API_KEY := "api-key";
     Elba.ELBA_API_BASE_URL := "https://elba.test/api" |}.

Definition alice : Worker.MondayUser :=
  {| Worker.mu_id := "1"; Worker.mu_name := "Alice"; Worker.mu_email := "alice@foo.bar" |}.
Definition bob : Worker.MondayUser :=
  {| Worker.mu_id := "2"; Worker.mu_name := "Bob"; Worker.mu_email := "bob@foo.bar" |}.

Definition page_of (us : list Worker.MondayUser) (next : option Z) : Worker.GetUsersResult :=
  {| Worker.result_data := {| Worker.users := us |}; Worker.nextPage := next |}.

Definition table : list Worker.OrganisationRow :=
  [ {| Worker.org_id := "org-1"; Worker.org_token := "token-1" |} ].

Definition T0 : Z := 1700000000000.

(** The first delivery of a sync of [org-1] started at [T0]. *)
Definition first_event : Worker.Event :=
  {| Worker.name := "monday/users.page_sync.requested";
     Worker.data :=
       {| Worker.organisationId := "org-1";
          Worker.region := "eu";
          Worker.isFirstSync := false;
          Worker.syncStartedAt := T0;
          Worker.page := None |} |}.

(** The same for an organisation that is not in the table. *)
Definition unknown_event : Worker.Event :=
  {| Worker.name := "monday/users.page_sync.requested";
     Worker.data :=
       {| Worker.organisationId := "org-2";
          Worker.region := "eu";
          Worker.isFirstSync := false;
          Worker.syncStartedAt := T0;
          Worker.page := None |} |}.

(** The delivery of the second page, cursor 2. *)
Definition second_event : Worker.Event :=
  Worker.continuation (Worker.data first_event) (Some 2).

Definition not_found : Js.error := Js.MondayError "Could not retrieve users" (Some 404).

(** Two pages: two users then cursor 2; no user and no cursor. *)
Definition two_pages : Worker.world :=
  {| Worker.env := env;
     Worker.organisations := table;
     Worker.getUsers := fun tok p =>
       if decide (tok = "token-1") then
         match p with
         | None => inr (page_of [alice; bob] (Some 2))
         | Some 2 => inr (page_of [] None)
         | Some _ => inl not_found
         end
       else inl (Js.MondayError "Could not retrieve users" (Some 401)) |}.

(** The same remote data behind another table and another answer to a
    token that is not in use. *)
Definition two_pages' : Worker.world :=
  {| Worker.env := env;
     Worker.organisations :=
       {| Worker.org_id := "org-0"; Worker.org_token := "token-0" |} :: table;
     Worker.getUsers := fun tok p =>
       if decide (tok = "token-1") then
         match p with
         | None => inr (page_of [alice; bob] (Some 2))
         | Some 2 => inr (page_of [] None)
         | Some _ => inl not_found
         end
       else inl not_found |}.

(** The first page with the same cursor and no user. *)
Definition two_pages_empty_first : Worker.world :=
  {| Worker.env := env;
     Worker.organisations := table;
     Worker.getUsers := fun tok p =>
       match p with
       | None => inr (page_of [] (Some 2))
       | Some _ => inr (page_of [] None)
       end |}.

(** Two pages where the cursor of the second page is the number 0. *)
Definition zero_cursor : Worker.world :=
  {| Worker.env := env;
     Worker.organisations := table;
     Worker.getUsers := fun tok p =>
       match p with
       | None => inr (page_of [alice] (Some 0))
       | Some 0 => inr (page_of [bob] None)
       | Some _ => inl not_found
       end |}.

(** A scheduler run that finds one organisation at instant [T0]. *)
Definition one_organisation : Scheduler.world :=
  {| Scheduler.getOrganisationsToSync := inr [ {| Scheduler.organisationId := "org-1" |} ];
     Scheduler.now := T0 |}.

(** The data of the middleware test-suite. *)
Definition organisation : Classifier.Organisation :=
  {| Classifier.id := "45a76301-f1dd-4a77-b12f-9d7d3fca3c90";
     Classifier.region := "us";
     Classifier.installationId := 0;
     Classifier.accountLogin := "some-login" |}.

Definition test_data : Classifier.EventData :=
  {| Classifier.data_organisationId := "45a76301-f1dd-4a77-b12f-9d7d3fca3c90";
     Classifier.data_region := "us" |}.

Definition unauthorizedError : Js.error := Js.RequestError "foo bar" 401 (Some 401).

(** [{ foo: 'bar', baz: { biz: true }, result: { data: 'bizz', error } }] *)
Definition test_context (error : option Js.error) : Classifier.Context (string * bool) string :=
  {| Classifier.context_fields := ("bar", true);
     Classifier.result :=
       {| Classifier.result_fields := "bizz"; Classifier.error := error |} |}.

End Sample.

(** ** More vocabulary on the calls of the worker *)

Module Calls.

Definition is_select (c : Worker.call) : bool :=
  match c with Worker.DbSelectToken _ => true | _ => false end.

(** How many calls of a trace satisfy [p]. *)
Definition count (p : Worker.call -> bool) (t : list Worker.call) : nat :=
  length (List.filter p t).

(** The run ended with a throw. *)
Definition throws {A} (m : Worker.M A) : Prop :=
  exists e, Effect.outcome m = inl e.

(** What a call of an invocation on [event] in [w] may be: the lookup of the
    organisation of the payload; a fetch with the cursor of the payload and
    the token of a row of that organisation; an elba call on the client of
    that organisation and region; a continuation of the payload. *)
Definition belongs_to (w : Worker.world) (event : Worker.Event) (c : Worker.call) : Prop :=
  let d := Worker.data event in
  match c with
  | Worker.DbSelectToken id => id = Worker.organisationId d
  | Worker.GetUsers tok p =>
      p = Worker.page d /\
      exists row, In row (Worker.organisations w)
                  /\ Worker.org_id row = Worker.organisationId d
                  /\ Worker.org_token row = tok
  | Worker.ElbaUsersUpdate elba _ => elba = Worker.elba_of w d
  | Worker.ElbaUsersDelete elba _ => elba = Worker.elba_of w d
  | Worker.SendEvent stepId next =>
      stepId = "sync-users-page"
      /\ Worker.name next = Worker.trigger_event Worker.config
      /\ Worker.same_sync d (Worker.data next)
  end.

End Calls.

(** ** The setup route (github connector) *)

Module Route.

(** A JavaScript number as [Number(_)] gives it: an integer, another finite
    number, an infinity or NaN. *)
Inductive number :=
| Integer (z : Z)
| NonInteger
| Infinity (negative : bool)
| NaN.

Record Env := {
  ELBA_REDIRECT_URL : string;
  ELBA_SOURCE_ID : string;
}.

(** The parts of a [NextRequest] the route reads: the query parameters, in
    order, and the cookies by name. *)
Record Request := {
  searchParams : list (string * string);
  cookies : gmap string string;
}.

(** [searchParams.get(name)]: the first value for [name], or [null]. *)
Definition searchParams_get (name : string) (r : Request) : option string :=
  snd <$> head (List.filter (fun kv => bool_decide (kv.1 = name)) (searchParams r)).

(** [cookies.get(name)?.value] *)
Definition cookie_value (name : string) (r : Request) : option string :=
  cookies r !! name.

(** The object given to [routeInputSchema.parse]. *)
Record RawInput := {
  raw_installationId : option string;
  raw_organisationId : option string;
  raw_region : option string;
}.

(** The output type of [routeInputSchema]. *)
Record Input := {
  organisationId : string;
  region : string;
  installationId : Z;
}.

(** What the [try] block may throw: the [ZodError] of a failed parse, with
    the paths of the fields that failed, in schema order; or whatever
    [setupOrganisation] rejects with. *)
Inductive thrown :=
| ZodError (paths : list string)
| Thrown (e : Js.error).

(** What the route reads from outside: the environment, the pattern behind
    [z.string().uuid()], the conversion [Number(s)] of a string, and the
    outcome of [setupOrganisation] ([None]: it resolves). *)
Record world := {
  env : Env;
  is_uuid : string -> bool;
  string_to_number : string -> number;
  setupOrganisation : Input -> option Js.error;
}.

(** [z.string().uuid()] *)
Definition parse_organisationId (w : world) (v : option string) : option string :=
  match v with
  | Some s => if is_uuid w s then Some s else None
  | None => None
  end.

(** [z.string().min(1)] *)
Definition parse_region (v : option string) : option string :=
  match v with
  | Some s => if (1 <=? Z.of_nat (String.length s)) then Some s else None
  | None => None
  end.

(** [Number(v)] for a string or [null]: [Number(null)] is 0. *)
Definition coerce_number (w : world) (v : option string) : number :=
  match v with
  | Some s => string_to_number w s
  | None => Integer 0
  end.

(** [z.coerce.number().int().positive()] *)
Definition parse_installationId (w : world) (v : option string) : option Z :=
  match coerce_number w v with
  | Integer z => if 0 <? z then Some z else None
  | _ => None
  end.

(** [routeInputSchema.parse(raw)]: the input, or the paths that failed. *)
Definition parse (w : world) (raw : RawInput) : list string + Input :=
  match parse_organisationId w (raw_organisationId raw),
        parse_region (raw_region raw),
        parse_installationId w (raw_installationId raw) with
  | Some o, Some r, Some i =>
      inr {| organisationId := o; region := r; installationId := i |}
  | o, r, i =>
      inl ((if o is Some _ then [] else ["organisationId"])
           ++ (if r is Some _ then [] else ["region"])
           ++ (if i is Some _ then [] else ["installationId"]))
  end.

Inductive call :=
| SetupOrganisation (input : Input)
| LoggerWarn (message : string) (error : thrown).

Inductive RedirectType := push | replace.

(** [redirect(url, type)] never returns: it ends the handler. *)
Record Redirect := {
  url : string;
  type : RedirectType;
}.

(** [error instanceof RequestError && error.response?.status === 401] *)
Definition is_unauthorized (error : thrown) : bool :=
  match error with
  | Thrown (Js.RequestError _ _ (Some s)) => s =? 401
  | _ => false
  end.

Definition redirect_url (w : world) (result : string) : string :=
  ELBA_REDIRECT_URL (env w) +:+ "?source_id=" +:+ ELBA_SOURCE_ID (env w) +:+ "&" +:+ result.

(** The object the route gives to the schema. *)
Definition raw_of (request : Request) : RawInput :=
  {| raw_installationId := searchParams_get "installation_id" request;
     raw_organisationId := cookie_value "organisation_id" request;
     raw_region := cookie_value "region" request |}.

(** The [try] block: the calls made and what was thrown, if anything. *)
Definition try_setup (w : world) (request : Request) : list call * option thrown :=
  match parse w (raw_of request) with
  | inl paths => ([], Some (ZodError paths))
  | inr input => ([SetupOrganisation input], Thrown <$> setupOrganisation w input)
  end.

(** The handler [GET]: the calls it makes and the redirect that ends it. *)
Definition GET (w : world) (request : Request) : list call * Redirect :=
  let '(calls, caught) := try_setup w request in
  match caught with
  | Some error =>
      (calls ++ [LoggerWarn "Could not setup organisation after Github redirection" error],
       if is_unauthorized error
       then {| url := redirect_url w "error=unauthorized"; type := replace |}
       else {| url := redirect_url w "error=internal_error"; type := replace |})
  | None =>
      (calls, {| url := redirect_url w "success=true"; type := replace |})
  end.

Definition setup_inputs (t : list call) : list Input :=
  omap (fun c => match c with SetupOrganisation i => Some i | _ => None end) t.

Definition warnings (t : list call) : list thrown :=
  omap (fun c => match c with LoggerWarn _ e => Some e | _ => None end) t.

End Route.

(** ** More sample data *)

Module Sample2.

(** A remote that answers every cursor with one user and the cursor 7. *)
Definition endless : Worker.world :=
  {| Worker.env := Sample.env;
     Worker.organisations := Sample.table;
     Worker.getUsers := fun tok p => inr (Sample.page_of [Sample.alice] (Some 7)) |}.

(** A remote that rejects every fetch with status 500. *)
Definition failing : Worker.world :=
  {| Worker.env := Sample.env;
     Worker.organisations := Sample.table;
     Worker.getUsers := fun tok p =>
       inl (Js.MondayError "Could not retrieve users" (Some 500)) |}.

(** The last page, delivered with a watermark that is no time value. *)
Definition late_event : Worker.Event :=
  {| Worker.name := "monday/users.page_sync.requested";
     Worker.data :=
       {| Worker.organisationId := "org-1";
          Worker.region := "eu";
          Worker.isFirstSync := false;
          Worker.syncStartedAt := 8640000000000001;
          Worker.page := Some 2 |} |}.

(** A scheduler run whose enumeration fails. *)
Definition no_database : Scheduler.world :=
  {| Scheduler.getOrganisationsToSync := inl (Js.Error "connection refused");
     Scheduler.now := Sample.T0 |}.

Definition route_env : Route.Env :=
  {| Route.ELBA_REDIRECT_URL := "https://elba.test/redirect";
     Route.ELBA_SOURCE_ID := "source-id" |}.

(** A [Number(_)] that reads the strings "42" and "1.5". *)
Definition to_number (s : string) : Route.number :=
  if decide (s = "42") then Route.Integer 42
  else if decide (s = "1.5") then Route.NonInteger
  else Route.NaN.

(** A route world where every string of 36 characters passes for a uuid,
    and [setupOrganisation] answers with [answer]. *)
Definition route_world (answer : option Js.error) : Route.world :=
  {| Route.env := route_env;
     Route.is_uuid := fun s => bool_decide (String.length s = 36%nat);
     Route.string_to_number := to_number;
     Route.setupOrganisation := fun _ => answer |}.

(** The redirection of github with installation 42, cookies set. *)
Definition good_request : Route.Request :=
  {| Route.searchParams := [("installation_id", "42"); ("setup_action", "install")];
     Route.cookies := {[ "organisation_id" := "45a76301-f1dd-4a77-b12f-9d7d3fca3c90";
                         "region" := "us" ]} |}.

(** The same without the [installation_id] parameter. *)
Definition no_installation : Route.Request :=
  {| Route.searchParams := [("setup_action", "install")];
     Route.cookies := {[ "organisation_id" := "45a76301-f1dd-4a77-b12f-9d7d3fca3c90";
                         "region" := "us" ]} |}.

End Sample2.

(** ** The worker when elba and the event API may reject *)

Module Fallible.

(** The answers of the collaborators the handler writes to: each call
    resolves to void or rejects with an error. *)
Record sink := {
  users_update : Elba.Options -> list Elba.User -> Js.error + unit;
  users_delete : Elba.Options -> string -> Js.error + unit;
  send_event : string -> Worker.Event -> Js.error + unit;
}.

Definition elba_users_update (s : sink) (elba : Elba.Options) (users : list Elba.User)
  : Worker.M unit :=
  Effect.perform (Worker.ElbaUsersUpdate elba users) (users_update s elba users).

Definition elba_users_delete (s : sink) (elba : Elba.Options) (syncedBefore : string)
  : Worker.M unit :=
  Effect.perform (Worker.ElbaUsersDelete elba syncedBefore) (users_delete s elba syncedBefore).

Definition step_sendEvent (s : sink) (stepId : string) (event : Worker.Event)
  : Worker.M unit :=
  Effect.perform (Worker.SendEvent stepId event) (send_event s stepId event).

(** The handler of [syncUsers], with every awaited call able to reject. *)
Definition syncUsers (w : Worker.world) (s : sink) (event : Worker.Event)
  : Worker.M Worker.Report :=
  let organisationId := Worker.organisationId (Worker.data event) in
  let page := Worker.page (Worker.data event) in
  let region := Worker.region (Worker.data event) in
  let syncStartedAt := Date.of_number (Worker.syncStartedAt (Worker.data event)) in
  let elba :=
    {| Elba.organisationId := organisationId;
       Elba.sourceId := Elba.ELBA_SOURCE_ID (Worker.env w);
       Elba.apiKey := Elba.ELBA_API_KEY (Worker.env w);
       Elba.baseUrl := Elba.ELBA_API_BASE_URL (Worker.env w);
       Elba.region := region |} in
  tok <- Worker.step_run "get-token" (
    rows <- Worker.db_select_token w organisationId ;;
    match rows with
    | [] =>
        Effect.throw (Js.NonRetriableError
          ("Could not retrieve organisation with id=" +:+ organisationId) None)
    | organisation :: _ => Effect.ret organisation
    end) ;;
  nextPage <- Worker.step_run "list-users" (
    result <- Worker.call_getUsers w (Worker.token tok) page ;;
    (if (0 <? Z.of_nat (length (Worker.users (Worker.result_data result))))
     then elba_users_update s elba
            (map Worker.formatElbaUser (Worker.users (Worker.result_data result)))
     else Effect.ret tt) ;;;
    Effect.ret (Worker.nextPage result)) ;;
  if Js.truthy nextPage then
    step_sendEvent s "sync-users-page"
      {| Worker.name := "monday/users.page_sync.requested";
         Worker.data := Worker.with_page (Worker.data event) nextPage |} ;;;
    Effect.ret {| Worker.status := "ongoing" |}
  else
    Worker.step_run "finalize" (
      syncedBefore <- ([], Date.toISOString (Date.of_date syncStartedAt)) ;;
      elba_users_delete s elba syncedBefore) ;;;
    Effect.ret {| Worker.status := "completed" |}.

(** A sink that resolves every call. *)
Definition resolving : sink :=
  {| users_update := fun _ _ => inr tt;
     users_delete := fun _ _ => inr tt;
     send_event := fun _ _ => inr tt |}.

(** The events of a run that joined the queue: those it sent, when the
    [sendEvent] resolved, that is when the run went on to return. *)
Definition queued (run : Worker.M Worker.Report) : list Worker.Event :=
  match Effect.outcome run with
  | inr _ => Worker.emitted (Effect.calls run)
  | inl _ => []
  end.

(** The deliveries of the runtime, as [Worker.deliver]. *)
Fixpoint deliver (fuel : nat) (w : Worker.world) (s : sink) (queue : list Worker.Event)
  : list (Worker.Event * Worker.M Worker.Report) :=
  match fuel, queue with
  | S k, ev :: rest =>
      if decide (Worker.name ev = Worker.trigger_event Worker.config) then
        let r := syncUsers w s ev in
        (ev, r) :: deliver k w s (rest ++ queued r)
      else deliver k w s rest
  | _, _ => []
  end.

(** The number of event-sending calls and of delete calls of a trace. *)
Definition sends (t : list Worker.call) : nat := length (List.filter Worker.is_send t).
Definition deletes (t : list Worker.call) : nat := length (List.filter Worker.is_delete t).

End Fallible.

Module Sample3.

(** The first delivery of a sync whose watermark is no time value. *)
Definition late_first_event : Worker.Event :=
  {| Worker.name := "monday/users.page_sync.requested";
     Worker.data :=
       {| Worker.organisationId := "org-1";
          Worker.region := "eu";
          Worker.isFirstSync := false;
          Worker.syncStartedAt := 8640000000000001;
          Worker.page := None |} |}.

(** A sink where the delete rejects and the other calls resolve. *)
Definition rejecting_delete : Fallible.sink :=
  {| Fallible.users_update := fun _ _ => inr tt;
     Fallible.users_delete := fun _ _ => inl (Js.Error "elba is down");
     Fallible.send_event := fun _ _ => inr tt |}.

End Sample3.
(** * Properties *)

(** ** Dates *)

Example iso_epoch : Date.toISOString (Date.of_number 0) = inr "1970-01-01T00:00:00.000Z".
Proof. reflexivity. Qed.

Example iso_2023 :
  Date.toISOString (Date.of_number 1700000000123) = inr "2023-11-14T22:13:20.123Z".
Proof. reflexivity. Qed.

Example iso_before_epoch :
  Date.toISOString (Date.of_number (-1)) = inr "1969-12-31T23:59:59.999Z".
Proof. reflexivity. Qed.

Example iso_leap_day :
  Date.toISOString (Date.of_number 1709164800000) = inr "2024-02-29T00:00:00.000Z".
Proof. reflexivity. Qed.

Example iso_max :
  Date.toISOString (Date.of_number 8640000000000000) = inr "+275760-09-13T00:00:00.000Z".
Proof. reflexivity. Qed.

Example iso_min :
  Date.toISOString (Date.of_number (-8640000000000000)) = inr "-271821-04-20T00:00:00.000Z".
Proof. reflexivity. Qed.

Example iso_out_of_range :
  Date.toISOString (Date.of_number 8640000000000001) = inl (Js.RangeError "Invalid time value").
Proof. reflexivity. Qed.

Lemma of_number_valid (n : Z) :
  Z.abs n <= Date.maxTime -> Date.of_number n = Date.Valid n.
Proof.
  intros H. unfold Date.of_number. destruct (Z.leb_spec (Z.abs n) Date.maxTime); [done | lia].
Qed.

Lemma of_number_invalid (n : Z) :
  Date.maxTime < Z.abs n -> Date.of_number n = Date.Invalid.
Proof.
  intros H. unfold Date.of_number. destruct (Z.leb_spec (Z.abs n) Date.maxTime); [lia | done].
Qed.

(** *** The rendering of a time value determines it *)

(** [days_of_civil] reads back the date [civil_of_days] gives, which has a
    month in 1..12 and a day in 1..31. *)
Lemma days_of_civil_of_days (z : Z) :
  let '(y, m, d) := Date.civil_of_days z in
  Date.days_of_civil y m d = z /\ 1 <= m <= 12 /\ 1 <= d <= 31
  /\ (z + 719468) / 146097 * 400 <= y <= (z + 719468) / 146097 * 400 + 400.
Proof.
  unfold Date.civil_of_days, Date.days_of_civil.
  set (z' := z + 719468).
  set (era := z' / 146097).
  set (doe := z' - era * 146097).
  assert (Hz : z = era * 146097 + doe - 719468) by (subst doe z'; lia).
  assert (Hdoe : 0 <= doe <= 146096) by (subst doe era; Z.div_mod_to_equations; lia).
  clearbody doe.
  set (yoe := (doe - doe / 1460 + doe / 36524 - doe / 146096) / 365).
  assert (Hyoe : 0 <= yoe <= 399) by (subst yoe; Z.div_mod_to_equations; lia).
  set (doy := doe - (365 * yoe + yoe / 4 - yoe / 100)).
  assert (Hdoy : 0 <= doy <= 365) by (subst doy yoe; Z.div_mod_to_equations; lia).
  assert (Hdoe' : doe = yoe * 365 + yoe / 4 - yoe / 100 + doy) by (subst doy; lia).
  clearbody doy yoe.
  set (mp := (5 * doy + 2) / 153).
  assert (Hmp : 0 <= mp <= 11) by (subst mp; Z.div_mod_to_equations; lia).
  set (d := doy - (153 * mp + 2) / 5 + 1).
  assert (Hd : 1 <= d <= 31) by (subst d mp; Z.div_mod_to_equations; lia).
  assert (Hdoy' : doy = (153 * mp + 2) / 5 + d - 1) by (subst d; lia).
  clearbody d mp.
  destruct (Z.ltb_spec mp 10).
  - destruct (Z.leb_spec (mp + 3) 2); [lia|].
    destruct (Z.ltb_spec 2 (mp + 3)); [|lia].
    replace (mp + 3 - 3) with mp by lia.
    replace (yoe + era * 400 + 0 - 0) with (yoe + era * 400) by lia.
    replace ((yoe + era * 400) / 400) with era by (Z.div_mod_to_equations; lia).
    replace (yoe + era * 400 - era * 400) with yoe by lia.
    rewrite <- Hdoy', <- Hdoe'. lia.
  - destruct (Z.leb_spec (mp - 9) 2); [|lia].
    destruct (Z.ltb_spec 2 (mp - 9)); [lia|].
    replace (mp - 9 + 9) with mp by lia.
    replace (yoe + era * 400 + 1 - 1) with (yoe + era * 400) by lia.
    replace ((yoe + era * 400) / 400) with era by (Z.div_mod_to_equations; lia).
    replace (yoe + era * 400 - era * 400) with yoe by lia.
    rewrite <- Hdoy', <- Hdoe'. lia.
Qed.

(** The fields of a time value determine it. *)
Lemma ms_of_fields_of_ms (ms : Z) : Date.ms_of_fields (Date.fields_of_ms ms) = ms.
Proof.
  unfold Date.ms_of_fields, Date.fields_of_ms.
  pose proof (days_of_civil_of_days (ms / Date.msPerDay)) as H.
  destruct (Date.civil_of_days (ms / Date.msPerDay)) as [[y m] d].
  destruct H as [H _]. cbn [Date.year Date.month Date.day Date.hours Date.minutes
                             Date.seconds Date.milliseconds].
  rewrite H. unfold Date.msPerDay. Z.div_mod_to_equations. lia.
Qed.

(** The fields of a time value in the range of [Date] are in range. *)
Lemma fields_of_ms_in_range (ms : Z) :
  Z.abs ms <= Date.maxTime -> Date.in_range (Date.fields_of_ms ms).
Proof.
  intros Hms. unfold Date.in_range, Date.fields_of_ms.
  pose proof (days_of_civil_of_days (ms / Date.msPerDay)) as H.
  destruct (Date.civil_of_days (ms / Date.msPerDay)) as [[y m] d].
  destruct H as (_ & Hm & Hd & Hy).
  cbn [Date.year Date.month Date.day Date.hours Date.minutes Date.seconds Date.milliseconds].
  unfold Date.msPerDay, Date.maxTime in *.
  repeat split; try lia; Z.div_mod_to_equations; lia.
Qed.

Lemma string_length_app (s t : string) :
  String.length (s +:+ t) = (String.length s + String.length t)%nat.
Proof.
  induction s as [|c s IH]; [done|].
  change (S (String.length (s +:+ t)) = S (String.length s + String.length t)).
  by rewrite IH.
Qed.

Lemma length_digits (n : nat) (z : Z) : String.length (Date.digits n z) = n.
Proof.
  revert z. induction n as [|n IH]; intros z; [done|].
  cbn [Date.digits]. rewrite string_length_app, IH. cbn. lia.
Qed.

(** Equal concatenations with heads of the same length have equal parts. *)
Lemma string_app_inj (s1 s2 t1 t2 : string) :
  String.length s1 = String.length s2 ->
  s1 +:+ t1 = s2 +:+ t2 -> s1 = s2 /\ t1 = t2.
Proof.
  revert s2. induction s1 as [|c s1 IH]; intros [|c' s2] Hlen Heq; try discriminate.
  - done.
  - cbn in Heq. injection Heq as -> Heq. cbn in Hlen.
    destruct (IH s2) as [-> ->]; [lia | done | done].
Qed.

Lemma digit_inj (a b : Z) : 0 <= a < 10 -> 0 <= b < 10 -> Date.digit a = Date.digit b -> a = b.
Proof.
  intros Ha Hb H. unfold Date.digit in H.
  apply (f_equal Ascii.nat_of_ascii) in H.
  rewrite !Ascii.nat_ascii_embedding in H by lia. lia.
Qed.

(** [n] digits determine a number below [10 ^ n]. *)
Lemma digits_inj (n : nat) :
  forall a b : Z, 0 <= a < 10 ^ Z.of_nat n -> 0 <= b < 10 ^ Z.of_nat n ->
    Date.digits n a = Date.digits n b -> a = b.
Proof.
  induction n as [|n IH]; intros a b Ha Hb H.
  - cbn in Ha, Hb. lia.
  - cbn [Date.digits] in H.
    rewrite Nat2Z.inj_succ, Z.pow_succ_r in Ha, Hb by lia.
    apply string_app_inj in H as [Hhigh Hlow]; [|by rewrite !length_digits].
    injection Hlow as Hlow.
    apply digit_inj in Hlow; [|apply Z.mod_pos_bound; lia..].
    apply IH in Hhigh; [|Z.div_mod_to_equations; lia..].
    Z.div_mod_to_equations. lia.
Qed.

Lemma length_year_string (y : Z) :
  String.length (Date.year_string y)
  = if (0 <=? y) && (y <=? 9999) then 4%nat else 7%nat.
Proof.
  unfold Date.year_string.
  destruct ((0 <=? y) && (y <=? 9999)); [apply length_digits|].
  destruct (y <? 0); by rewrite string_length_app, length_digits.
Qed.

(** Closes a bound [0 <= z < 10 ^ n] for a literal [n]. *)
Ltac digits_bound :=
  match goal with
  | |- context [10 ^ Z.of_nat ?n] =>
      let v := eval vm_compute in (10 ^ Z.of_nat n) in
      change (10 ^ Z.of_nat n) with v; lia
  end.

Lemma year_string_inj (a b : Z) :
  -999999 <= a <= 999999 -> -999999 <= b <= 999999 ->
  Date.year_string a = Date.year_string b -> a = b.
Proof.
  intros Ha Hb H.
  pose proof (f_equal String.length H) as Hlen. rewrite !length_year_string in Hlen.
  unfold Date.year_string in H.
  destruct ((0 <=? a) && (a <=? 9999)) eqn:Ea, ((0 <=? b) && (b <=? 9999)) eqn:Eb;
    try discriminate Hlen.
  - apply andb_true_iff in Ea as [Ea1 Ea2], Eb as [Eb1 Eb2].
    apply Z.leb_le in Ea1, Ea2, Eb1, Eb2.
    apply digits_inj in H; [done | digits_bound..].
  - apply andb_false_iff in Ea, Eb. rewrite !Z.leb_gt in Ea, Eb.
    destruct (Z.ltb_spec a 0), (Z.ltb_spec b 0);
      (apply string_app_inj in H as [Hsign H]; [|done]); try discriminate Hsign;
      (apply digits_inj in H; [lia | digits_bound..]).
Qed.

(** The rendering determines the fields. *)
Lemma render_inj (f g : Date.fields) :
  Date.in_range f -> Date.in_range g -> Date.render f = Date.render g -> f = g.
Proof.
  intros (Hy & Hm & Hd & Hh & Hmin & Hs & Hms) (Hy' & Hm' & Hd' & Hh' & Hmin' & Hs' & Hms') H.
  destruct f as [y m d h mi s ms], g as [y' m' d' h' mi' s' ms']. cbn in *.
  unfold Date.render in H. cbn [Date.year Date.month Date.day Date.hours Date.minutes
                                 Date.seconds Date.milliseconds] in H.
  assert (Hlen : String.length (Date.year_string y) = String.length (Date.year_string y')).
  { apply (f_equal String.length) in H.
    rewrite !string_length_app, !length_digits in H. lia. }
  apply string_app_inj in H as [Hyear H]; [|exact Hlen].
  apply year_string_inj in Hyear; [|lia..].
  repeat match type of H with
         | String _ _ +:+ _ = String _ _ +:+ _ =>
             apply string_app_inj in H as [_ H]; [|done]
         | Date.digits _ _ +:+ _ = Date.digits _ _ +:+ _ =>
             let Hx := fresh "Hx" in
             apply string_app_inj in H as [Hx H]; [|by rewrite !length_digits];
             apply digits_inj in Hx; [|digits_bound..]
         end.
  by subst.
Qed.

Lemma iso_of_ms_unfold (ms : Z) : Date.iso_of_ms ms = Date.render (Date.fields_of_ms ms).
Proof. reflexivity. Qed.

(** Two time values with the same ISO rendering are the same. *)
Lemma iso_of_ms_inj (a b : Z) :
  Z.abs a <= Date.maxTime -> Z.abs b <= Date.maxTime ->
  Date.iso_of_ms a = Date.iso_of_ms b -> a = b.
Proof.
  intros Ha Hb H. rewrite !iso_of_ms_unfold in H.
  pose proof (render_inj _ _ (fields_of_ms_in_range a Ha) (fields_of_ms_in_range b Hb) H)
    as Hfields.
  rewrite <- (ms_of_fields_of_ms a), Hfields. apply ms_of_fields_of_ms.
Qed.

(** ** The worker, one invocation *)

(** [xs.length > 0] *)
Lemma length_positive {A} (l : list A) :
  (0 <? Z.of_nat (length l)) = match l with [] => false | _ :: _ => true end.
Proof. destruct l; reflexivity. Qed.

(** Unfolds the handler down to the responses of its collaborators. *)
Ltac step_worker :=
  cbv beta iota zeta delta
    [Worker.syncUsers Worker.step_run Worker.step_sendEvent Worker.db_select_token
     Worker.call_getUsers Worker.elba_users_update Worker.elba_users_delete
     Effect.bind Effect.perform Effect.ret Effect.throw Date.of_date Date.toISOString].

Section WorkerInvocation.
Import Worker.

Variable w : world.
Variable event : Event.

Local Abbreviation d := (data event).
Local Abbreviation elba_of := (Worker.elba_of w (data event)).
Local Abbreviation update_of := (Worker.update_of w (data event)).
Local Abbreviation continuation := (Worker.continuation (data event)).

Lemma syncUsers_no_organisation :
  select_token w (organisationId d) = [] ->
  syncUsers w event =
    ([DbSelectToken (organisationId d)],
     inl (Js.NonRetriableError
            ("Could not retrieve organisation with id=" +:+ organisationId d) None)).
Proof.
  intros Hsel. step_worker. rewrite Hsel. reflexivity.
Qed.

Section Found.
Variable tok : TokenRow.
Variable others : list TokenRow.
Hypothesis Hsel : select_token w (organisationId d) = tok :: others.

Lemma syncUsers_fetch_rejected (e : Js.error) :
  getUsers w (token tok) (page d) = inl e ->
  syncUsers w event =
    ([DbSelectToken (organisationId d); GetUsers (token tok) (page d)], inl e).
Proof.
  intros Hget. step_worker. rewrite Hsel, Hget. reflexivity.
Qed.

Section Fetched.
Variable r : GetUsersResult.
Hypothesis Hget : getUsers w (token tok) (page d) = inr r.

Lemma syncUsers_more_pages :
  Js.truthy (nextPage r) = true ->
  syncUsers w event =
    ([DbSelectToken (organisationId d); GetUsers (token tok) (page d)]
       ++ update_of r
       ++ [SendEvent "sync-users-page" (continuation (nextPage r))],
     inr {| status := "ongoing" |}).
Proof.
  intros Ht. step_worker. rewrite Hsel, Hget, length_positive.
  unfold Worker.update_of.
  destruct (users (result_data r)) as [|u us];
    cbn -[Js.truthy map]; rewrite Ht; reflexivity.
Qed.

Lemma syncUsers_finalize :
  Js.truthy (nextPage r) = false ->
  Z.abs (syncStartedAt d) <= Date.maxTime ->
  syncUsers w event =
    ([DbSelectToken (organisationId d); GetUsers (token tok) (page d)]
       ++ update_of r
       ++ [ElbaUsersDelete elba_of (Date.iso_of_ms (syncStartedAt d))],
     inr {| status := "completed" |}).
Proof.
  intros Ht Hv. step_worker. rewrite Hsel, Hget, length_positive.
  unfold Worker.update_of.
  rewrite (of_number_valid _ Hv).
  destruct (users (result_data r)) as [|u us];
    cbn -[Js.truthy map Date.iso_of_ms]; rewrite Ht; reflexivity.
Qed.

(** A watermark outside the range of time values makes the finalize
    step throw. *)
Lemma syncUsers_finalize_invalid_date :
  Js.truthy (nextPage r) = false ->
  Date.maxTime < Z.abs (syncStartedAt d) ->
  syncUsers w event =
    ([DbSelectToken (organisationId d); GetUsers (token tok) (page d)]
       ++ update_of r,
     inl (Js.RangeError "Invalid time value")).
Proof.
  intros Ht Hv. step_worker. rewrite Hsel, Hget, length_positive.
  unfold Worker.update_of.
  rewrite (of_number_invalid _ Hv).
  destruct (users (result_data r)) as [|u us];
    cbn -[Js.truthy map]; rewrite Ht; reflexivity.
Qed.

(** The three cases at once. *)
Lemma syncUsers_fetched :
  syncUsers w event =
    ([DbSelectToken (organisationId d); GetUsers (token tok) (page d)]
       ++ update_of r ++ Effect.calls (after_page w d (nextPage r)),
     Effect.outcome (after_page w d (nextPage r))).
Proof.
  unfold after_page. destruct (Js.truthy (nextPage r)) eqn:Ht.
  - by rewrite syncUsers_more_pages.
  - destruct (Z.le_gt_cases (Z.abs (syncStartedAt d)) Date.maxTime) as [Hv|Hv].
    + rewrite syncUsers_finalize, (of_number_valid _ Hv); done.
    + apply Z.gt_lt_iff, Z.gt_lt in Hv.
      rewrite syncUsers_finalize_invalid_date, (of_number_invalid _ Hv); [|done..].
      cbn. by rewrite app_nil_r.
Qed.

Lemma calls_syncUsers_fetched :
  Effect.calls (syncUsers w event) =
    [DbSelectToken (organisationId d); GetUsers (token tok) (page d)]
      ++ update_of r ++ Effect.calls (after_page w d (nextPage r)).
Proof. by rewrite syncUsers_fetched. Qed.

Lemma outcome_syncUsers_fetched :
  Effect.outcome (syncUsers w event) = Effect.outcome (after_page w d (nextPage r)).
Proof. by rewrite syncUsers_fetched. Qed.
End Fetched.
End Found.

(** However the invocation ends, the events it sends are continuations of
    its own payload, and there is at most one. *)
Lemma emitted_syncUsers :
  emitted (Effect.calls (syncUsers w event)) = [] \/
  exists nextPage, emitted (Effect.calls (syncUsers w event)) = [continuation nextPage].
Proof.
  destruct (select_token w (organisationId d)) as [|tok others] eqn:Hsel.
  { left. by rewrite syncUsers_no_organisation. }
  destruct (getUsers w (token tok) (page d)) as [e|r] eqn:Hget.
  { left. by rewrite (syncUsers_fetch_rejected _ _ Hsel e). }
  rewrite (syncUsers_fetched _ _ Hsel r Hget).
  unfold after_page, Worker.update_of.
  destruct (Js.truthy (nextPage r)).
  - right. exists (nextPage r). by destruct (users (result_data r)).
  - left. destruct (Date.toISOString _), (users (result_data r)); reflexivity.
Qed.
End WorkerInvocation.

Lemma select_token_no_credential (w : Worker.world) (organisationId : string) :
  Worker.no_credential w organisationId -> Worker.select_token w organisationId = [].
Proof.
  unfold Worker.no_credential, Worker.select_token.
  induction 1 as [|r rows Hr _ IH]; [done|].
  rewrite filter_cons_False by (intros ?; by apply Hr). exact IH.
Qed.

Lemma update_batches_app (t1 t2 : list Worker.call) :
  Worker.update_batches (t1 ++ t2) = Worker.update_batches t1 ++ Worker.update_batches t2.
Proof. apply omap_app. Qed.

Lemma delete_args_app (t1 t2 : list Worker.call) :
  Worker.delete_args (t1 ++ t2) = Worker.delete_args t1 ++ Worker.delete_args t2.
Proof. apply omap_app. Qed.

Lemma emitted_app (t1 t2 : list Worker.call) :
  Worker.emitted (t1 ++ t2) = Worker.emitted t1 ++ Worker.emitted t2.
Proof. apply omap_app. Qed.

Lemma update_batches_update_of (w : Worker.world) (d : Worker.SynchronizeUsers)
    (r : Worker.GetUsersResult) :
  Worker.update_batches (Worker.update_of w d r) = option_list (Worker.batch_of r).
Proof. unfold Worker.update_of, Worker.batch_of. by destruct (Worker.users _). Qed.

Lemma delete_args_update_of (w : Worker.world) (d : Worker.SynchronizeUsers)
    (r : Worker.GetUsersResult) :
  Worker.delete_args (Worker.update_of w d r) = [].
Proof. unfold Worker.update_of. by destruct (Worker.users _). Qed.

Lemma emitted_update_of (w : Worker.world) (d : Worker.SynchronizeUsers)
    (r : Worker.GetUsersResult) :
  Worker.emitted (Worker.update_of w d r) = [].
Proof. unfold Worker.update_of. by destruct (Worker.users _). Qed.

Lemma update_batches_after_page (w : Worker.world) (d : Worker.SynchronizeUsers)
    (nextPage : option Z) :
  Worker.update_batches (Effect.calls (Worker.after_page w d nextPage)) = [].
Proof.
  unfold Worker.after_page.
  destruct (Js.truthy nextPage); [done|]. by destruct (Date.toISOString _).
Qed.

Lemma filter_not_update_update_of (w : Worker.world) (d : Worker.SynchronizeUsers)
    (r : Worker.GetUsersResult) :
  List.filter (fun c => negb (Worker.is_update c)) (Worker.update_of w d r) = [].
Proof. unfold Worker.update_of. by destruct (Worker.users _). Qed.

(** ** C6: no credential, no sync *)

(** C6. When the organisation of the payload has no row in the table, the
    invocation throws the non-retriable "Could not retrieve organisation"
    error and its only call is the database lookup: no page is fetched,
    nothing is sent to elba, no event is emitted. *)
Theorem syncUsers_organisation_not_found (w : Worker.world) (event : Worker.Event) :
  Worker.no_credential w (Worker.organisationId (Worker.data event)) ->
  Effect.outcome (Worker.syncUsers w event) =
    inl (Js.NonRetriableError
           ("Could not retrieve organisation with id="
              +:+ Worker.organisationId (Worker.data event)) None)
  /\ Effect.calls (Worker.syncUsers w event) =
       [Worker.DbSelectToken (Worker.organisationId (Worker.data event))]
  /\ Forall (fun c => Worker.is_fetch c = false /\ Worker.is_update c = false
                      /\ Worker.is_delete c = false /\ Worker.is_send c = false)
            (Effect.calls (Worker.syncUsers w event)).
Proof.
  intros Hno. apply select_token_no_credential in Hno.
  rewrite (syncUsers_no_organisation _ _ Hno). cbn.
  repeat split. by constructor.
Qed.

Lemma syncUsers_organisation_not_found_witness :
  Worker.no_credential Sample.two_pages "org-2"
  /\ Effect.outcome (Worker.syncUsers Sample.two_pages Sample.unknown_event) =
       inl (Js.NonRetriableError "Could not retrieve organisation with id=org-2" None)
  /\ Effect.calls (Worker.syncUsers Sample.two_pages Sample.unknown_event) =
       [Worker.DbSelectToken "org-2"].
Proof.
  assert (H : Worker.no_credential Sample.two_pages "org-2")
    by (repeat constructor; discriminate).
  split; [exact H|].
  destruct (syncUsers_organisation_not_found Sample.two_pages Sample.unknown_event H)
    as (Hout & Hcalls & _).
  split; [exact Hout | exact Hcalls].
Defined.

(** ** C7: an update call exactly for a page with records *)



(** ** C8: a page step depends on the payload and on the answers only *)

(** The handler reads the world through the rows selected for the
    organisation, the answer of the fetcher for the first selected token
    and the given cursor, and the environment. *)
Lemma syncUsers_ext (w1 w2 : Worker.world) (event : Worker.Event) :
  let d := Worker.data event in
  Worker.select_token w1 (Worker.organisationId d)
    = Worker.select_token w2 (Worker.organisationId d) ->
  (forall tok, head (Worker.select_token w1 (Worker.organisationId d)) = Some tok ->
     Worker.getUsers w1 (Worker.token tok) (Worker.page d)
       = Worker.getUsers w2 (Worker.token tok) (Worker.page d)) ->
  Worker.env w1 = Worker.env w2 ->
  Worker.syncUsers w1 event = Worker.syncUsers w2 event.
Proof.
  intros d Hsel Hget Henv. subst d. step_worker.
  rewrite <- Hsel, <- Henv.
  destruct (Worker.select_token w1 _) as [|tok others]; [done|].
  by rewrite <- (Hget tok eq_refl).
Qed.

(** C8. Two deliveries of the same payload, in worlds where the table
    selects the same rows for the organisation and the fetcher gives the same
    answer for the token and cursor in use, send the same batches to
    [elba.users.update]; with the same environment the two runs are equal
    call for call, outcome included. *)
Theorem redelivery_same_batch (w1 w2 : Worker.world) (event : Worker.Event) :
  let d := Worker.data event in
  Worker.select_token w1 (Worker.organisationId d)
    = Worker.select_token w2 (Worker.organisationId d) ->
  (forall tok, head (Worker.select_token w1 (Worker.organisationId d)) = Some tok ->
     Worker.getUsers w1 (Worker.token tok) (Worker.page d)
       = Worker.getUsers w2 (Worker.token tok) (Worker.page d)) ->
  Worker.update_batches (Effect.calls (Worker.syncUsers w1 event))
    = Worker.update_batches (Effect.calls (Worker.syncUsers w2 event))
  /\ (Worker.env w1 = Worker.env w2 ->
      Worker.syncUsers w1 event = Worker.syncUsers w2 event).
Proof.
  intros d Hsel Hget. split; [|by apply syncUsers_ext].
  subst d.
  destruct (Worker.select_token w1 _) as [|tok others] eqn:Hsel1.
  { by rewrite !syncUsers_no_organisation. }
  symmetry in Hsel. specialize (Hget tok eq_refl).
  destruct (Worker.getUsers w1 (Worker.token tok) _) as [e|r] eqn:Hget1; symmetry in Hget.
  { by rewrite (syncUsers_fetch_rejected _ _ _ _ Hsel1 e Hget1),
               (syncUsers_fetch_rejected _ _ _ _ Hsel e Hget). }
  rewrite (calls_syncUsers_fetched _ _ _ _ Hsel1 _ Hget1),
    (calls_syncUsers_fetched _ _ _ _ Hsel _ Hget).
  by rewrite !update_batches_app, !update_batches_update_of, !update_batches_after_page.
Qed.

Lemma redelivery_same_batch_witness :
  Worker.update_batches
    (Effect.calls (Worker.syncUsers Sample.two_pages Sample.first_event))
  = Worker.update_batches
      (Effect.calls (Worker.syncUsers Sample.two_pages' Sample.first_event))
  /\ Worker.syncUsers Sample.two_pages Sample.first_event
     = Worker.syncUsers Sample.two_pages' Sample.first_event.
Proof.
  destruct (redelivery_same_batch Sample.two_pages Sample.two_pages' Sample.first_event
              eq_refl) as [Hbatch Hrun].
  - intros tok Htok. injection Htok as <-. reflexivity.
  - split; [exact Hbatch | exact (Hrun eq_refl)].
Defined.

(** ** C10: the cursor 0 is no cursor *)



(** ** C2: continuation *)

Lemma same_sync_refl (d : Worker.SynchronizeUsers) : Worker.same_sync d d.
Proof. by repeat split. Qed.

Lemma same_sync_with_page (d0 d : Worker.SynchronizeUsers) (nextPage : option Z) :
  Worker.same_sync d0 d -> Worker.same_sync d0 (Worker.with_page d nextPage).
Proof. intros H. exact H. Qed.

Lemma deliver_nil (fuel : nat) (w : Worker.world) : Worker.deliver fuel w [] = [].
Proof. by destruct fuel. Qed.

(** Every delivery of a logical sync carries the payload of the first one,
    cursor apart. *)
Lemma deliver_same_sync (w : Worker.world) (d0 : Worker.SynchronizeUsers) (fuel : nat) :
  forall queue : list Worker.Event,
    Forall (fun e => Worker.same_sync d0 (Worker.data e)) queue ->
    Forall (fun er => Worker.same_sync d0 (Worker.data er.1)) (Worker.deliver fuel w queue).
Proof.
  induction fuel as [|fuel IH]; intros queue Hq; [by constructor|].
  destruct queue as [|ev rest]; [by constructor|].
  apply Forall_cons in Hq as [Hev Hrest]. cbn [Worker.deliver].
  destruct (decide _); [|by apply IH].
  constructor; [exact Hev|]. apply IH, Forall_app. split; [exact Hrest|].
  destruct (emitted_syncUsers w ev) as [-> | [nextPage ->]]; [by constructor|].
  constructor; [|by constructor]. by apply same_sync_with_page.
Qed.




(** ** C1: one logical sync *)

Lemma emitted_after_page (w : Worker.world) (d : Worker.SynchronizeUsers)
    (nextPage : option Z) :
  Worker.emitted (Effect.calls (Worker.after_page w d nextPage)) =
    if Js.truthy nextPage then [Worker.continuation d nextPage] else [].
Proof.
  unfold Worker.after_page.
  destruct (Js.truthy nextPage); [done|]. by destruct (Date.toISOString _).
Qed.

Lemma all_calls_cons (er : Worker.Event * Worker.M Worker.Report)
    (runs : list (Worker.Event * Worker.M Worker.Report)) :
  Worker.all_calls (er :: runs) = Effect.calls er.2 ++ Worker.all_calls runs.
Proof. reflexivity. Qed.

Lemma all_calls_app (runs1 runs2 : list (Worker.Event * Worker.M Worker.Report)) :
  Worker.all_calls (runs1 ++ runs2) = Worker.all_calls runs1 ++ Worker.all_calls runs2.
Proof. unfold Worker.all_calls. by rewrite map_app, concat_app. Qed.

Lemma omap_cons_option_list {A B} (f : A -> option B) (x : A) (l : list A) :
  omap f (x :: l) = option_list (f x) ++ omap f l.
Proof. cbn. by destruct (f x). Qed.

Section LogicalSync.
Import Worker.

Variable w : world.
Variable tok : TokenRow.

(** The run of the handler on each event of a chain. *)
Local Abbreviation runs_of evs := (map (fun e => (e, syncUsers w e)) evs).

(** Along a chain of pages, the runtime delivers the chain of events, one
    delivery per page, and then has nothing left. *)
Lemma deliver_chain (pages : list GetUsersResult) :
  forall (ev : Event) (others : list TokenRow) (fuel : nat),
    name ev = trigger_event config ->
    select_token w (organisationId (data ev)) = tok :: others ->
    spans w (token tok) (page (data ev)) pages ->
    (length pages <= fuel)%nat ->
    deliver fuel w [ev] = runs_of (chain ev pages).
Proof.
  induction pages as [|r rest IH]; intros ev others fuel Hname Hsel Hspans Hfuel;
    [done|].
  destruct Hspans as [Hget Hrest].
  destruct fuel as [|fuel]; [cbn in Hfuel; lia|].
  cbn [deliver chain map]. rewrite decide_True by exact Hname.
  f_equal. rewrite app_nil_l.
  rewrite (calls_syncUsers_fetched _ _ _ _ Hsel _ Hget).
  rewrite !emitted_app, emitted_update_of, emitted_after_page. cbn [emitted omap app].
  destruct rest as [|r' rest'].
  - rewrite Hrest. cbn. apply deliver_nil.
  - destruct Hrest as [Htruthy Hspans]. rewrite Htruthy.
    apply (IH _ others); [done | exact Hsel | exact Hspans | cbn in *; lia].
Qed.

(** The batches of a chain are the batches of its pages with records. *)
Lemma chain_update_batches (pages : list GetUsersResult) :
  forall (ev : Event) (others : list TokenRow),
    select_token w (organisationId (data ev)) = tok :: others ->
    spans w (token tok) (page (data ev)) pages ->
    update_batches (all_calls (runs_of (chain ev pages))) = omap batch_of pages.
Proof.
  induction pages as [|r rest IH]; intros ev others Hsel Hspans; [done|].
  destruct Hspans as [Hget Hrest].
  cbn [chain map]. rewrite all_calls_cons. cbn [snd].
  rewrite update_batches_app, (calls_syncUsers_fetched _ _ _ _ Hsel _ Hget).
  rewrite !update_batches_app, update_batches_update_of, update_batches_after_page.
  rewrite app_nil_r, omap_cons_option_list.
  destruct rest as [|r' rest']; [reflexivity|].
  destruct Hrest as [_ Hspans].
  by rewrite (IH (continuation (data ev) (nextPage r)) others Hsel Hspans).
Qed.

(** All the invocations of a chain but the last keep going; the last one
    finalizes. *)
Lemma chain_finalizes_last (d0 : SynchronizeUsers) (pages : list GetUsersResult) :
  Z.abs (syncStartedAt d0) <= Date.maxTime ->
  forall (ev : Event) (others : list TokenRow),
    same_sync d0 (data ev) ->
    select_token w (organisationId (data ev)) = tok :: others ->
    spans w (token tok) (page (data ev)) pages ->
    exists before last,
      runs_of (chain ev pages) = before ++ [last]
      /\ Forall keeps_going before
      /\ finalizes w d0 last.
Proof.
  intros Hvalid.
  induction pages as [|r rest IH]; intros ev others Hsame Hsel Hspans; [done|].
  destruct Hspans as [Hget Hrest].
  pose proof Hsame as (Horg & Hregion & _ & Hstart).
  destruct rest as [|r' rest'].
  - exists [], (ev, syncUsers w ev). split; [done|]. split; [by constructor|].
    rewrite <- Hstart in Hvalid.
    unfold finalizes. cbn [snd].
    rewrite (syncUsers_finalize _ _ _ _ Hsel _ Hget Hrest Hvalid).
    unfold Effect.calls, Effect.outcome. cbn [fst snd].
    split; [|done].
    exists ([DbSelectToken (organisationId (data ev));
             GetUsers (token tok) (page (data ev))] ++ update_of w (data ev) r).
    split.
    + rewrite <- app_assoc. unfold elba_of. by rewrite Horg, Hregion, Hstart.
    + by rewrite delete_args_app, delete_args_update_of.
  - destruct Hrest as [Htruthy Hspans].
    destruct (IH (continuation (data ev) (nextPage r)) others) as (before & last & Heq & Hbefore & Hlast);
      [by apply same_sync_with_page | exact Hsel | exact Hspans |].
    exists ((ev, syncUsers w ev) :: before), last.
    split; [cbn [chain map] in *; by rewrite Heq|].
    split; [|exact Hlast].
    constructor; [|exact Hbefore].
    unfold keeps_going. cbn [snd].
    rewrite (syncUsers_more_pages _ _ _ _ Hsel _ Hget Htruthy).
    unfold Effect.calls, Effect.outcome. cbn [fst snd].
    by rewrite !delete_args_app, delete_args_update_of.
Qed.
End LogicalSync.

Lemma delete_args_keeps_going (runs : list (Worker.Event * Worker.M Worker.Report)) :
  Forall Worker.keeps_going runs -> Worker.delete_args (Worker.all_calls runs) = [].
Proof.
  induction 1 as [|er runs [Hno _] _ IH]; [done|].
  by rewrite all_calls_cons, delete_args_app, Hno, IH.
Qed.

Lemma length_omap_batch_of (pages : list Worker.GetUsersResult) :
  Forall (fun r => Worker.users (Worker.result_data r) <> []) pages ->
  length (omap Worker.batch_of pages) = length pages.
Proof.
  induction 1 as [|r pages Hr _ IH]; [done|].
  rewrite omap_cons_option_list, length_app, IH. unfold Worker.batch_of.
  by destruct (Worker.users (Worker.result_data r)).
Qed.




(** ** C5: the scheduler *)

Lemma scheduleUserSync_resolved (w : Scheduler.world)
    (orgs : list Scheduler.OrganisationToSync) :
  Scheduler.getOrganisationsToSync w = inr orgs ->
  Scheduler.scheduleUserSync w =
    (Scheduler.GetOrganisationsToSync ::
       match orgs with
       | [] => []
       | _ :: _ =>
           [Scheduler.SendEvent "run-user-sync-jobs"
              (map (fun o =>
                      {| Scheduler.name := "dropbox/users.sync_page.triggered";
                         Scheduler.data :=
                           {[ "organisationId" := Js.Str (Scheduler.organisationId o);
                              "isFirstSync" := Js.Bool false;
                              "syncStartedAt" := Js.Number (Scheduler.now w) ]} |})
                   orgs)]
       end,
     inr {| Scheduler.organisations := orgs |}).
Proof.
  intros Hget. unfold Scheduler.scheduleUserSync, Scheduler.step_sendEvent.
  cbv beta iota zeta delta [Effect.bind Effect.perform Effect.ret].
  rewrite Hget, length_positive. by destruct orgs.
Qed.

(** A failure to enumerate the organisations is the failure of the run. *)
Lemma scheduleUserSync_rejected (w : Scheduler.world) (e : Js.error) :
  Scheduler.getOrganisationsToSync w = inl e ->
  Scheduler.scheduleUserSync w = ([Scheduler.GetOrganisationsToSync], inl e).
Proof.
  intros Hget. unfold Scheduler.scheduleUserSync.
  cbv beta iota zeta delta [Effect.bind Effect.perform Effect.ret].
  by rewrite Hget.
Qed.

(** The payload the scheduler builds has three properties and no other. *)
Lemma scheduled_payload (organisationId : string) (syncStartedAt : Z) :
  let data : gmap string Js.value :=
    {[ "organisationId" := Js.Str organisationId;
       "isFirstSync" := Js.Bool false;
       "syncStartedAt" := Js.Number syncStartedAt ]} in
  Scheduler.property data "organisationId" = Js.Str organisationId
  /\ Scheduler.property data "isFirstSync" = Js.Bool false
  /\ Scheduler.property data "syncStartedAt" = Js.Number syncStartedAt
  /\ dom data = {[ "organisationId"; "isFirstSync"; "syncStartedAt" ]}
  /\ Scheduler.property data "page" = Js.Undefined
  /\ Scheduler.property data "region" = Js.Undefined.
Proof.
  intros data. subst data. unfold Scheduler.property.
  repeat split; by simplify_map_eq.
Qed.

(** C5, with the payload the scheduler builds. When the enumeration
    resolves to no organisation, the run sends no event and returns the
    empty list. Otherwise it sends, in one [sendEvent] call, exactly one
    event per organisation, in order; each event carries the id of its
    organisation, [isFirstSync = false] and the instant read once for the
    whole run as [syncStartedAt], and nothing else: [page] (and [region]) are
    not set and read as undefined. The run returns the organisations. *)
Theorem schedule_one_event_per_organisation (w : Scheduler.world)
    (orgs : list Scheduler.OrganisationToSync) :
  let run := Scheduler.scheduleUserSync w in
  Scheduler.getOrganisationsToSync w = inr orgs ->
  Effect.outcome run = inr {| Scheduler.organisations := orgs |}
  /\ (orgs = [] -> Effect.calls run = [Scheduler.GetOrganisationsToSync])
  /\ (orgs <> [] ->
      exists events, Effect.calls run =
        [Scheduler.GetOrganisationsToSync; Scheduler.SendEvent "run-user-sync-jobs" events])
  /\ Forall2
       (fun o e =>
          Scheduler.name e = "dropbox/users.sync_page.triggered"
          /\ Scheduler.property (Scheduler.data e) "organisationId"
             = Js.Str (Scheduler.organisationId o)
          /\ Scheduler.property (Scheduler.data e) "isFirstSync" = Js.Bool false
          /\ Scheduler.property (Scheduler.data e) "syncStartedAt" = Js.Number (Scheduler.now w)
          /\ dom (Scheduler.data e) = {[ "organisationId"; "isFirstSync"; "syncStartedAt" ]}
          /\ Scheduler.property (Scheduler.data e) "page" = Js.Undefined)
       orgs (Scheduler.emitted (Effect.calls run)).
Proof.
  intros run Hget. subst run. rewrite (scheduleUserSync_resolved w orgs Hget).
  unfold Effect.calls, Effect.outcome. cbn [fst snd].
  split; [done|]. split; [by intros ->|]. split.
  - intros Hne. destruct orgs; [done|]. by eexists.
  - assert (Hemitted : forall os : list Scheduler.OrganisationToSync,
              Forall2
                (fun o e =>
                   Scheduler.name e = "dropbox/users.sync_page.triggered"
                   /\ Scheduler.property (Scheduler.data e) "organisationId"
                      = Js.Str (Scheduler.organisationId o)
                   /\ Scheduler.property (Scheduler.data e) "isFirstSync" = Js.Bool false
                   /\ Scheduler.property (Scheduler.data e) "syncStartedAt"
                      = Js.Number (Scheduler.now w)
                   /\ dom (Scheduler.data e)
                      = {[ "organisationId"; "isFirstSync"; "syncStartedAt" ]}
                   /\ Scheduler.property (Scheduler.data e) "page" = Js.Undefined)
                os
                (map (fun o =>
                        {| Scheduler.name := "dropbox/users.sync_page.triggered";
                           Scheduler.data :=
                             {[ "organisationId" := Js.Str (Scheduler.organisationId o);
                                "isFirstSync" := Js.Bool false;
                                "syncStartedAt" := Js.Number (Scheduler.now w) ]} |})
                     os)).
    { induction os as [|o os IH]; [by constructor|].
      cbn [map]. constructor; [|exact IH]. cbn [Scheduler.name Scheduler.data].
      destruct (scheduled_payload (Scheduler.organisationId o) (Scheduler.now w))
        as (H1 & H2 & H3 & H4 & H5 & _).
      by repeat split. }
    destruct orgs as [|o os]; [by constructor|].
    unfold Scheduler.emitted. cbn [omap list_omap concat]. rewrite app_nil_r.
    apply Hemitted.
Qed.

Lemma schedule_one_event_per_organisation_witness :
  Effect.calls (Scheduler.scheduleUserSync Sample.one_organisation) =
    [Scheduler.GetOrganisationsToSync;
     Scheduler.SendEvent "run-user-sync-jobs"
       [{| Scheduler.name := "dropbox/users.sync_page.triggered";
           Scheduler.data := {[ "organisationId" := Js.Str "org-1";
                                "isFirstSync" := Js.Bool false;
                                "syncStartedAt" := Js.Number Sample.T0 ]} |}]]
  /\ Effect.outcome (Scheduler.scheduleUserSync Sample.one_organisation)
     = inr {| Scheduler.organisations := [ {| Scheduler.organisationId := "org-1" |} ] |}.
Proof.
  destruct (schedule_one_event_per_organisation Sample.one_organisation
              [ {| Scheduler.organisationId := "org-1" |} ] eq_refl)
    as (Hout & _ & _ & _).
  split; [reflexivity | exact Hout].
Defined.

(** The claim C5 as stated fails on [page = null]: the event sent for an
    organisation has no [page] property, which reads as undefined. *)
Lemma schedule_page_is_not_null :
  exists e,
    Scheduler.emitted (Effect.calls (Scheduler.scheduleUserSync Sample.one_organisation)) = [e]
    /\ Scheduler.data e !! "page" = None
    /\ Scheduler.property (Scheduler.data e) "page" <> Js.Null.
Proof.
  eexists. split; [reflexivity|]. split; [reflexivity | discriminate].
Qed.

(** ** C3 and C4: the failure classifier *)

Lemma select_deleted_organisation (organisationId : string)
    (db : list Classifier.Organisation) :
  Classifier.select_organisation organisationId
    (Classifier.delete_organisation organisationId db) = [].
Proof.
  unfold Classifier.select_organisation, Classifier.delete_organisation.
  induction db as [|o db IH]; [done|].
  destruct (decide (Classifier.id o = organisationId)) as [Heq|Hne].
  - rewrite (filter_cons_False (fun o => Classifier.id o <> organisationId)); [done|].
    intros H. by apply H.
  - rewrite (filter_cons_True (fun o => Classifier.id o <> organisationId)) by done.
    rewrite filter_cons_False by done. exact IH.
Qed.

Lemma elem_of_delete_organisation (organisationId : string)
    (db : list Classifier.Organisation) (o : Classifier.Organisation) :
  o ∈ Classifier.delete_organisation organisationId db
  <-> o ∈ db /\ Classifier.id o <> organisationId.
Proof. unfold Classifier.delete_organisation. rewrite list_elem_of_filter. tauto. Qed.

(** C3. On a result whose error is an authorization rejection, the hook
    makes exactly two calls, each once: the connection-status update with
    [hasError = true], on a client built for the organisation and region of
    the event, and the removal of the organisation; afterwards no row of the
    table has the id of the organisation, and the other rows are as before;
    the output carries a non-retriable error whose cause is the original
    error, and the other fields of the result and of the context are those
    of the input. *)
Theorem unauthorized_becomes_terminal {R D : Type} (env : Elba.Env) (message : string)
    (data : Classifier.EventData) (db : list Classifier.Organisation)
    (ctx : Classifier.Context R D) (e : Js.error) :
  let run := Classifier.transformOutput env message data db ctx in
  let organisationId := Classifier.data_organisationId data in
  Classifier.error (Classifier.result ctx) = Some e ->
  Classifier.is_unauthorized e = true ->
  Classifier.calls run =
    [Classifier.ElbaConnectionStatusUpdate
       {| Elba.organisationId := organisationId;
          Elba.sourceId := Elba.ELBA_SOURCE_ID env;
          Elba.apiKey := Elba.ELBA_API_KEY env;
          Elba.baseUrl := Elba.ELBA_API_BASE_URL env;
          Elba.region := Classifier.data_region data |} true;
     Classifier.DbDeleteOrganisation organisationId]
  /\ length (List.filter Classifier.is_status_update (Classifier.calls run)) = 1%nat
  /\ length (List.filter Classifier.is_db_delete (Classifier.calls run)) = 1%nat
  /\ Classifier.select_organisation organisationId (Classifier.db_after run) = []
  /\ (forall o, o ∈ Classifier.db_after run <-> o ∈ db /\ Classifier.id o <> organisationId)
  /\ exists ctx',
       Classifier.output run = Some ctx'
       /\ Classifier.error (Classifier.result ctx')
          = Some (Js.NonRetriableError message (Some e))
       /\ (forall e', Classifier.error (Classifier.result ctx') = Some e' ->
             Js.is_non_retriable e' = true /\ Js.cause e' = Some e)
       /\ Classifier.result_fields (Classifier.result ctx')
          = Classifier.result_fields (Classifier.result ctx)
       /\ Classifier.context_fields ctx' = Classifier.context_fields ctx.
Proof.
  intros run organisationId Herr Hunauthorized. subst run organisationId.
  unfold Classifier.transformOutput. rewrite Herr, Hunauthorized.
  cbn [Classifier.calls Classifier.db_after Classifier.output].
  split; [done|]. split; [done|]. split; [done|].
  split; [apply select_deleted_organisation|].
  split; [intros o; apply elem_of_delete_organisation|].
  eexists. split; [reflexivity|]. cbn.
  split; [done|]. split; [|done]. by intros e' [= <-].
Qed.

Lemma unauthorized_becomes_terminal_witness :
  let run := Classifier.transformOutput Sample.env "unauthorized" Sample.test_data
               [Sample.organisation] (Sample.test_context (Some Sample.unauthorizedError)) in
  Classifier.is_unauthorized Sample.unauthorizedError = true
  /\ length (List.filter Classifier.is_status_update (Classifier.calls run)) = 1%nat
  /\ length (List.filter Classifier.is_db_delete (Classifier.calls run)) = 1%nat
  /\ Classifier.select_organisation "45a76301-f1dd-4a77-b12f-9d7d3fca3c90"
       (Classifier.db_after run) = [].
Proof.
  destruct (unauthorized_becomes_terminal Sample.env "unauthorized" Sample.test_data
              [Sample.organisation] (Sample.test_context (Some Sample.unauthorizedError))
              Sample.unauthorizedError eq_refl eq_refl)
    as (_ & Hupdate & Hdelete & Hselect & _).
  split; [reflexivity|]. split; [exact Hupdate|]. split; [exact Hdelete | exact Hselect].
Defined.

(** C4. On a result without error, or with an error that is not an
    authorization rejection, the hook makes no call, leaves the table as it
    is and returns no transformation: the result goes on unmodified. *)
Theorem other_results_pass_through {R D : Type} (env : Elba.Env) (message : string)
    (data : Classifier.EventData) (db : list Classifier.Organisation)
    (ctx : Classifier.Context R D) :
  let run := Classifier.transformOutput env message data db ctx in
  (Classifier.error (Classifier.result ctx) = None
   \/ exists e, Classifier.error (Classifier.result ctx) = Some e
                /\ Classifier.is_unauthorized e = false) ->
  Classifier.calls run = []
  /\ Classifier.db_after run = db
  /\ Classifier.output run = None
  /\ Classifier.effective_output ctx run = ctx.
Proof.
  intros run Hcase. subst run. unfold Classifier.effective_output, Classifier.transformOutput.
  destruct Hcase as [-> | (e & -> & ->)]; done.
Qed.

Lemma other_results_pass_through_witness :
  let run := Classifier.transformOutput Sample.env "unauthorized" Sample.test_data
               [Sample.organisation] (Sample.test_context (Some (Js.Error "foo bar"))) in
  Classifier.calls run = []
  /\ Classifier.db_after run = [Sample.organisation]
  /\ Classifier.output run = None.
Proof.
  destruct (other_results_pass_through Sample.env "unauthorized" Sample.test_data
              [Sample.organisation] (Sample.test_context (Some (Js.Error "foo bar"))))
    as (Hcalls & Hdb & Hout & _).
  - right. exists (Js.Error "foo bar"). split; reflexivity.
  - split; [exact Hcalls|]. split; [exact Hdb | exact Hout].
Defined.

(** *** The test-suite of the middleware, on the model *)

(** "should not transform the output when their is no error" *)
Example test_no_error (data : Classifier.EventData) :
  Classifier.output
    (Classifier.transformOutput Sample.env "unauthorized" data [Sample.organisation]
       (Sample.test_context None)) = None.
Proof. reflexivity. Qed.

(** "should not transform the output when the error is not about github
    authorization" *)
Example test_other_error (data : Classifier.EventData) :
  Classifier.output
    (Classifier.transformOutput Sample.env "unauthorized" data [Sample.organisation]
       (Sample.test_context (Some (Js.Error "foo bar")))) = None.
Proof. reflexivity. Qed.

(** "should transform the output error to NonRetriableError and remove the
    organisation when the error is about github authorization" *)
Example test_unauthorized :
  let run := Classifier.transformOutput Sample.env "unauthorized" Sample.test_data
               [Sample.organisation] (Sample.test_context (Some Sample.unauthorizedError)) in
  exists result,
    Classifier.output run = Some result
    /\ (exists e, Classifier.error (Classifier.result result) = Some e
                  /\ Js.is_non_retriable e = true
                  /\ Js.cause e = Some Sample.unauthorizedError)
    /\ Classifier.context_fields result = ("bar", true)
    /\ Classifier.result_fields (Classifier.result result) = "bizz"
    /\ Classifier.calls run =
         [Classifier.ElbaConnectionStatusUpdate
            {| Elba.organisationId := Classifier.id Sample.organisation;
               Elba.sourceId := Elba.ELBA_SOURCE_ID Sample.env;
               Elba.apiKey := Elba.ELBA_API_KEY Sample.env;
               Elba.baseUrl := Elba.ELBA_API_BASE_URL Sample.env;
               Elba.region := Classifier.region Sample.organisation |} true;
          Classifier.DbDeleteOrganisation (Classifier.id Sample.organisation)]
    /\ length (Classifier.select_organisation "45a76301-f1dd-4a77-b12f-9d7d3fca3c90"
                 (Classifier.db_after run)) = 0%nat.
Proof.
  eexists. split; [reflexivity|]. split; [by eexists|]. by repeat split.
Qed.

(** A rejected fetch that is not an authorization rejection, and a network
    failure: neither is classified. *)
Example server_error_not_unauthorized :
  Classifier.is_unauthorized (Js.MondayError "Could not retrieve users" (Some 500)) = false
  /\ Classifier.is_unauthorized (Js.Error "network timeout") = false.
Proof. by split. Qed.

(** ** The dispatch configuration of the worker *)

(** The function is registered with a concurrency limit of 1 keyed on the
    organisation of the event, three retries, and a priority for first
    syncs. Enforcing them is the work of the runtime. *)
Example config_concurrency :
  Worker.concurrency_key Worker.config = "event.data.organisationId"
  /\ Worker.concurrency_limit Worker.config = 1
  /\ Worker.retries Worker.config = 3
  /\ Worker.trigger_event Worker.config = "monday/users.page_sync.requested".
Proof. by repeat split. Qed.

(** ** Scenarios *)

(** The cursor a page carries is the cursor of the next delivery, as is. *)
Lemma chain_cursors (pages : list Worker.GetUsersResult) :
  forall ev : Worker.Event,
    pages <> [] ->
    map (fun e => Worker.page (Worker.data e)) (Worker.chain ev pages)
    = Worker.page (Worker.data ev) :: map Worker.nextPage (removelast pages).
Proof.
  induction pages as [|r rest IH]; intros ev Hne; [done|].
  destruct rest as [|r' rest']; [done|].
  change (Worker.chain ev (r :: r' :: rest'))
    with (ev :: Worker.chain (Worker.continuation (Worker.data ev) (Worker.nextPage r))
                  (r' :: rest')).
  change (removelast (r :: r' :: rest')) with (r :: removelast (r' :: rest')).
  rewrite !map_cons, (IH (Worker.continuation (Worker.data ev) (Worker.nextPage r))) by done.
  reflexivity.
Qed.

(** Two users and the cursor 2, then no user and no cursor: one update with
    the two users and a continuation event for the cursor 2; then no update,
    the delete for the watermark, and "completed". *)
Example scenario_two_pages :
  let elba :=
    {| Elba.organisationId := "org-1"; Elba.sourceId := "source-id";
       Elba.apiKey := "api-key"; Elba.baseUrl := "https://elba.test/api";
       Elba.region := "eu" |} in
  Worker.deliver 5 Sample.two_pages [Sample.first_event] =
    [ (Sample.first_event,
       ([Worker.DbSelectToken "org-1";
         Worker.GetUsers "token-1" None;
         Worker.ElbaUsersUpdate elba
           [ {| Elba.id := "1"; Elba.displayName := "Alice"; Elba.email := "alice@foo.bar";
                Elba.additionalEmails := [] |};
             {| Elba.id := "2"; Elba.displayName := "Bob"; Elba.email := "bob@foo.bar";
                Elba.additionalEmails := [] |} ];
         Worker.SendEvent "sync-users-page" Sample.second_event],
        inr {| Worker.status := "ongoing" |}));
      (Sample.second_event,
       ([Worker.DbSelectToken "org-1";
         Worker.GetUsers "token-1" (Some 2);
         Worker.ElbaUsersDelete elba "2023-11-14T22:13:20.000Z"],
        inr {| Worker.status := "completed" |})) ].
Proof. reflexivity. Qed.

(** A fetch rejected with status 401: the invocation throws the rejection
    after the lookup and the fetch, and the classifier takes it for an
    authorization rejection; with status 500 it does not. *)
Example scenario_rejected_fetch (w : Worker.world) (status : Z) :
  Worker.organisations w = Sample.table ->
  Worker.getUsers w "token-1" None
    = inl (Js.MondayError "Could not retrieve users" (Some status)) ->
  Worker.syncUsers w Sample.first_event =
    ([Worker.DbSelectToken "org-1"; Worker.GetUsers "token-1" None],
     inl (Js.MondayError "Could not retrieve users" (Some status)))
  /\ Classifier.is_unauthorized (Js.MondayError "Could not retrieve users" (Some status))
     = (status =? 401).
Proof.
  intros Htable Hget. split; [|done].
  apply (syncUsers_fetch_rejected w Sample.first_event {| Worker.token := "token-1" |} []);
    [|exact Hget].
  unfold Worker.select_token. by rewrite Htable.
Qed.

(** A watermark that is no time value: the last page is fetched, and the
    finalize step throws instead of deleting. *)
Example scenario_invalid_watermark :
  let event :=
    {| Worker.name := "monday/users.page_sync.requested";
       Worker.data := {| Worker.organisationId := "org-1"; Worker.region := "eu";
                         Worker.isFirstSync := false;
                         Worker.syncStartedAt := 8640000000000001;
                         Worker.page := Some 2 |} |} in
  Worker.syncUsers Sample.two_pages event =
    ([Worker.DbSelectToken "org-1"; Worker.GetUsers "token-1" (Some 2)],
     inl (Js.RangeError "Invalid time value")).
Proof. reflexivity. Qed.

(** * Further properties of the handlers *)

(** ** The worker: what one invocation may do *)

(** The rows selected for an organisation come from rows of that
    organisation. *)
Lemma select_token_head (w : Worker.world) (organisationId : string)
    (tok : Worker.TokenRow) (others : list Worker.TokenRow) :
  Worker.select_token w organisationId = tok :: others ->
  exists row, In row (Worker.organisations w)
              /\ Worker.org_id row = organisationId
              /\ Worker.org_token row = Worker.token tok.
Proof.
  unfold Worker.select_token. intros Hsel.
  assert (Hin : tok ∈ map (fun r => {| Worker.token := Worker.org_token r |})
                    (filter (fun r => Worker.org_id r = organisationId)
                            (Worker.organisations w)))
    by (rewrite Hsel; left).
  apply list_elem_of_In, in_map_iff in Hin as (row & <- & Hrow).
  apply list_elem_of_In, list_elem_of_filter in Hrow as [Hid Hrow].
  exists row. by rewrite <- list_elem_of_In.
Qed.

(** The ways an invocation can go. *)
Lemma syncUsers_cases (w : Worker.world) (event : Worker.Event) :
  let d := Worker.data event in
  (Worker.select_token w (Worker.organisationId d) = []
   /\ Worker.syncUsers w event =
        ([Worker.DbSelectToken (Worker.organisationId d)],
         inl (Js.NonRetriableError
                ("Could not retrieve organisation with id=" +:+ Worker.organisationId d)
                None)))
  \/ (exists tok others e,
        Worker.select_token w (Worker.organisationId d) = tok :: others
        /\ Worker.getUsers w (Worker.token tok) (Worker.page d) = inl e
        /\ Worker.syncUsers w event =
             ([Worker.DbSelectToken (Worker.organisationId d);
               Worker.GetUsers (Worker.token tok) (Worker.page d)], inl e))
  \/ (exists tok others r,
        Worker.select_token w (Worker.organisationId d) = tok :: others
        /\ Worker.getUsers w (Worker.token tok) (Worker.page d) = inr r
        /\ Worker.syncUsers w event =
             ([Worker.DbSelectToken (Worker.organisationId d);
               Worker.GetUsers (Worker.token tok) (Worker.page d)]
                ++ Worker.update_of w d r
                ++ Effect.calls (Worker.after_page w d (Worker.nextPage r)),
              Effect.outcome (Worker.after_page w d (Worker.nextPage r)))).
Proof.
  intros d. subst d.
  destruct (Worker.select_token w _) as [|tok others] eqn:Hsel.
  { left. split; [done|]. by apply syncUsers_no_organisation. }
  right.
  destruct (Worker.getUsers w (Worker.token tok) (Worker.page (Worker.data event)))
    as [e|r] eqn:Hget.
  - left. exists tok, others, e. repeat split; [done|].
    by apply (syncUsers_fetch_rejected w event tok others).
  - right. exists tok, others, r. repeat split; [done|].
    by apply (syncUsers_fetched w event tok others).
Qed.

(** What follows the page step: a single event and "ongoing", or a single
    delete and "completed", or a throw and nothing. *)
Lemma after_page_cases (w : Worker.world) (d : Worker.SynchronizeUsers)
    (nextPage : option Z) :
  (Js.truthy nextPage = true
   /\ Worker.after_page w d nextPage =
        ([Worker.SendEvent "sync-users-page" (Worker.continuation d nextPage)],
         inr {| Worker.status := "ongoing" |}))
  \/ (Js.truthy nextPage = false
      /\ Z.abs (Worker.syncStartedAt d) <= Date.maxTime
      /\ Worker.after_page w d nextPage =
           ([Worker.ElbaUsersDelete (Worker.elba_of w d)
               (Date.iso_of_ms (Worker.syncStartedAt d))],
            inr {| Worker.status := "completed" |}))
  \/ (Js.truthy nextPage = false
      /\ Date.maxTime < Z.abs (Worker.syncStartedAt d)
      /\ Worker.after_page w d nextPage = ([], inl (Js.RangeError "Invalid time value"))).
Proof.
  unfold Worker.after_page. destruct (Js.truthy nextPage); [by left|]. right.
  destruct (Z.le_gt_cases (Z.abs (Worker.syncStartedAt d)) Date.maxTime) as [Hv|Hv].
  - left. by rewrite (of_number_valid _ Hv).
  - right. apply Z.gt_lt_iff, Z.gt_lt in Hv. by rewrite (of_number_invalid _ Hv).
Qed.

(** X1. When the fetch of the page rejects, the invocation throws the very
    error of the fetcher, after the lookup and the fetch and nothing else:
    no batch goes to elba, nothing is deleted, no event is sent. *)
Theorem fetch_rejection_propagates (w : Worker.world) (event : Worker.Event)
    (tok : Worker.TokenRow) (others : list Worker.TokenRow) (e : Js.error) :
  let d := Worker.data event in
  let run := Worker.syncUsers w event in
  Worker.select_token w (Worker.organisationId d) = tok :: others ->
  Worker.getUsers w (Worker.token tok) (Worker.page d) = inl e ->
  Effect.outcome run = inl e
  /\ Effect.calls run = [Worker.DbSelectToken (Worker.organisationId d);
                         Worker.GetUsers (Worker.token tok) (Worker.page d)]
  /\ Worker.update_batches (Effect.calls run) = []
  /\ Worker.delete_args (Effect.calls run) = []
  /\ Worker.emitted (Effect.calls run) = [].
Proof.
  intros d run Hsel Hget. subst d run.
  by rewrite (syncUsers_fetch_rejected w event tok others Hsel e Hget).
Qed.

Lemma fetch_rejection_propagates_witness :
  Effect.outcome (Worker.syncUsers Sample2.failing Sample.first_event)
    = inl (Js.MondayError "Could not retrieve users" (Some 500))
  /\ Worker.delete_args (Effect.calls (Worker.syncUsers Sample2.failing Sample.first_event))
     = [].
Proof.
  destruct (fetch_rejection_propagates Sample2.failing Sample.first_event
              {| Worker.token := "token-1" |} []
              (Js.MondayError "Could not retrieve users" (Some 500)) eq_refl eq_refl)
    as (Hout & _ & _ & Hdelete & _).
  split; [exact Hout | exact Hdelete].
Defined.



(** Splits the run of an invocation into its five ways to go. *)
Ltac invocation_cases w event :=
  let Hafter := fresh "Hafter" in
  destruct (syncUsers_cases w event)
    as [[? ->] | [(? & ? & ? & ? & ? & ->) | (? & ? & ?r & ? & ? & ->)]];
  [ | | destruct (after_page_cases w (Worker.data event) (Worker.nextPage r))
          as [[? Hafter] | [(? & ? & Hafter) | (? & ? & Hafter)]];
        rewrite Hafter ];
  unfold Effect.calls, Effect.outcome; cbn [fst snd].

(** X4. Every call of an invocation stays with the organisation of its
    payload: the lookup is for that organisation, the fetch uses the cursor
    of the payload and the token of a row of that organisation, the elba
    calls go through the client built for that organisation and region, and
    an event sent names the worker's own trigger and carries the payload,
    cursor apart. *)
Theorem calls_stay_with_organisation (w : Worker.world) (event : Worker.Event)
    (c : Worker.call) :
  In c (Effect.calls (Worker.syncUsers w event)) -> Calls.belongs_to w event c.
Proof.
  assert (Hupdate : forall r, In c (Worker.update_of w (Worker.data event) r) ->
                              Calls.belongs_to w event c).
  { intros r. unfold Worker.update_of.
    destruct (Worker.users (Worker.result_data r)); [done|]. by intros [<-|[]]. }
  assert (Hfetch : forall tok others,
             Worker.select_token w (Worker.organisationId (Worker.data event)) = tok :: others ->
             Calls.belongs_to w event
               (Worker.GetUsers (Worker.token tok) (Worker.page (Worker.data event)))).
  { intros tok others Hsel. split; [done|]. by apply select_token_head in Hsel. }
  invocation_cases w event; rewrite ?in_app_iff; cbn [In].
  all: intros Hin; repeat destruct Hin as [Hin|Hin]; subst;
    try done; eauto using same_sync_refl.
  all: by (split; [done|]; split; [done|apply same_sync_with_page, same_sync_refl]).
Qed.

Lemma calls_stay_with_organisation_witness :
  Calls.belongs_to Sample.two_pages Sample.first_event
    (Worker.GetUsers "token-1" None).
Proof.
  apply (calls_stay_with_organisation Sample.two_pages Sample.first_event).
  right. left. reflexivity.
Defined.

(** X5. Every invocation starts with the lookup of the organisation and
    makes it once; it fetches at most once, right after the lookup, and
    sends at most one batch; without a fetch it makes no other call. *)
Theorem lookup_then_fetch_then_rest (w : Worker.world) (event : Worker.Event) :
  let d := Worker.data event in
  let calls := Effect.calls (Worker.syncUsers w event) in
  exists rest,
    calls = Worker.DbSelectToken (Worker.organisationId d) :: rest
    /\ Calls.count Calls.is_select calls = 1%nat
    /\ (Calls.count Worker.is_fetch calls <= 1)%nat
    /\ (Calls.count Worker.is_update calls <= 1)%nat
    /\ (rest = [] \/
        exists tok rest', rest = Worker.GetUsers tok (Worker.page d) :: rest'
                          /\ Calls.count Worker.is_fetch rest' = 0%nat).
Proof.
  intros d calls. subst d calls. unfold Calls.count.
  assert (Hupdate : forall r,
            let u := Worker.update_of w (Worker.data event) r in
            List.filter Calls.is_select u = [] /\ List.filter Worker.is_fetch u = []
            /\ (length (List.filter Worker.is_update u) <= 1)%nat).
  { intros r. unfold Worker.update_of.
    destruct (Worker.users (Worker.result_data r)); cbn; repeat split; lia. }
  invocation_cases w event; eexists; (split; [reflexivity|]);
    try (destruct (Hupdate r) as (Hs & Hf & Hu));
    cbn [List.filter Calls.is_select Worker.is_fetch Worker.is_update length app];
    rewrite ?List.filter_app, ?Hs, ?Hf, ?length_app;
    cbn [List.filter Calls.is_select Worker.is_fetch Worker.is_update length app].
  all: repeat split; try lia; try (by left).
  all: right; eexists _, _; split; [reflexivity|];
    rewrite ?List.filter_app, ?Hf; reflexivity.
Qed.

(** ** The worker: what a whole sync may do *)

(** An invocation that sends an event keeps going. *)
Lemma sending_keeps_going (w : Worker.world) (event : Worker.Event) :
  Worker.emitted (Effect.calls (Worker.syncUsers w event)) <> [] ->
  Worker.keeps_going (event, Worker.syncUsers w event).
Proof.
  unfold Worker.keeps_going. cbn [snd].
  invocation_cases w event;
    rewrite ?emitted_app, ?delete_args_app, ?emitted_update_of, ?delete_args_update_of;
    cbn [Worker.emitted Worker.delete_args omap list_omap app]; done.
Qed.



(** The fetch of an invocation that got its page. *)
Lemma fetch_of_fetched (w : Worker.world) (event : Worker.Event)
    (tok : Worker.TokenRow) (others : list Worker.TokenRow) (r : Worker.GetUsersResult) :
  Worker.select_token w (Worker.organisationId (Worker.data event)) = tok :: others ->
  Worker.getUsers w (Worker.token tok) (Worker.page (Worker.data event)) = inr r ->
  List.filter Worker.is_fetch (Effect.calls (Worker.syncUsers w event))
  = [Worker.GetUsers (Worker.token tok) (Worker.page (Worker.data event))].
Proof.
  intros Hsel Hget. rewrite (calls_syncUsers_fetched w event tok others Hsel r Hget).
  rewrite !List.filter_app.
  assert (Hupdate : List.filter Worker.is_fetch (Worker.update_of w (Worker.data event) r) = []).
  { unfold Worker.update_of. by destruct (Worker.users _). }
  assert (Hafter : List.filter Worker.is_fetch
                     (Effect.calls (Worker.after_page w (Worker.data event) (Worker.nextPage r)))
                   = []).
  { unfold Worker.after_page. destruct (Js.truthy _); [done|].
    by destruct (Date.toISOString _). }
  by rewrite Hupdate, Hafter.
Qed.



(** ** The scheduler: a failed enumeration *)

(** X10. When the enumeration of the organisations rejects, the run of the
    scheduler rejects with the same error and sends no event. *)
Theorem schedule_enumeration_failure (w : Scheduler.world) (e : Js.error) :
  let run := Scheduler.scheduleUserSync w in
  Scheduler.getOrganisationsToSync w = inl e ->
  Effect.outcome run = inl e
  /\ Scheduler.emitted (Effect.calls run) = []
  /\ Effect.calls run = [Scheduler.GetOrganisationsToSync].
Proof.
  intros run Hget. subst run. by rewrite (scheduleUserSync_rejected w e Hget).
Qed.

Lemma schedule_enumeration_failure_witness :
  Effect.outcome (Scheduler.scheduleUserSync Sample2.no_database)
    = inl (Js.Error "connection refused")
  /\ Scheduler.emitted (Effect.calls (Scheduler.scheduleUserSync Sample2.no_database)) = [].
Proof.
  destruct (schedule_enumeration_failure Sample2.no_database
              (Js.Error "connection refused") eq_refl) as (Hout & Hsent & _).
  split; [exact Hout | exact Hsent].
Defined.

(** ** The setup route *)

(** The parse succeeds exactly when each field passes, with the fields
    parsed as output. *)
Lemma parse_inr (w : Route.world) (raw : Route.RawInput) (input : Route.Input) :
  Route.parse w raw = inr input <->
  Route.parse_organisationId w (Route.raw_organisationId raw)
    = Some (Route.organisationId input)
  /\ Route.parse_region (Route.raw_region raw) = Some (Route.region input)
  /\ Route.parse_installationId w (Route.raw_installationId raw)
     = Some (Route.installationId input).
Proof.
  unfold Route.parse.
  destruct (Route.parse_organisationId _ _) as [o|], (Route.parse_region _) as [r|],
    (Route.parse_installationId _ _) as [i|]; destruct input as [o' r' i']; cbn;
    split; try done; try (by intros (? & ? & ?)).
  - by intros [= -> -> ->].
  - by intros ([= ->] & [= ->] & [= ->]).
Qed.

(** A failed parse names at least one field. *)
Lemma parse_inl (w : Route.world) (raw : Route.RawInput) (paths : list string) :
  Route.parse w raw = inl paths ->
  paths <> []
  /\ (Route.parse_organisationId w (Route.raw_organisationId raw) = None
      \/ Route.parse_region (Route.raw_region raw) = None
      \/ Route.parse_installationId w (Route.raw_installationId raw) = None).
Proof.
  unfold Route.parse.
  destruct (Route.parse_organisationId _ _) as [o|], (Route.parse_region _) as [r|],
    (Route.parse_installationId _ _) as [i|]; intros [= <-]; split; try done; auto.
Qed.

(** The redirect URLs differ as their last parts do. *)
Lemma redirect_url_inj (w : Route.world) (a b : string) :
  Route.redirect_url w a = Route.redirect_url w b -> a = b.
Proof.
  unfold Route.redirect_url. intros H.
  repeat (apply string_app_inj in H as [_ H]; [|done]). exact H.
Qed.

(** The three ways the handler can go. *)
Lemma GET_cases (w : Route.world) (request : Route.Request) :
  (exists paths, Route.parse w (Route.raw_of request) = inl paths
     /\ Route.GET w request =
          ([Route.LoggerWarn "Could not setup organisation after Github redirection"
              (Route.ZodError paths)],
           {| Route.url := Route.redirect_url w "error=internal_error";
              Route.type := Route.replace |}))
  \/ (exists input e, Route.parse w (Route.raw_of request) = inr input
        /\ Route.setupOrganisation w input = Some e
        /\ Route.GET w request =
             ([Route.SetupOrganisation input;
               Route.LoggerWarn "Could not setup organisation after Github redirection"
                 (Route.Thrown e)],
              {| Route.url :=
                   Route.redirect_url w
                     (if Route.is_unauthorized (Route.Thrown e)
                      then "error=unauthorized" else "error=internal_error");
                 Route.type := Route.replace |}))
  \/ (exists input, Route.parse w (Route.raw_of request) = inr input
        /\ Route.setupOrganisation w input = None
        /\ Route.GET w request =
             ([Route.SetupOrganisation input],
              {| Route.url := Route.redirect_url w "success=true";
                 Route.type := Route.replace |})).
Proof.
  unfold Route.GET, Route.try_setup.
  destruct (Route.parse w (Route.raw_of request)) as [paths|input]; [left; by exists paths|].
  right. destruct (Route.setupOrganisation w input) as [e|] eqn:Hsetup.
  - left. exists input, e. cbn -[Route.is_unauthorized Route.redirect_url].
    split; [done|]. split; [done|].
    by destruct (Route.is_unauthorized (Route.Thrown e)).
  - right. exists input. cbn. by repeat split.
Qed.

(** X11. Every request ends in one redirect, of type replace, to one of
    three URLs. It is the success URL exactly when the input passes the
    schema and [setupOrganisation] resolves, and exactly then nothing is
    logged; otherwise exactly one warning is logged, as the last call. *)
Theorem route_success_iff (w : Route.world) (request : Route.Request) :
  let calls := (Route.GET w request).1 in
  let target := (Route.GET w request).2 in
  Route.type target = Route.replace
  /\ (Route.url target = Route.redirect_url w "success=true"
      \/ Route.url target = Route.redirect_url w "error=unauthorized"
      \/ Route.url target = Route.redirect_url w "error=internal_error")
  /\ (Route.url target = Route.redirect_url w "success=true" <->
      exists input, Route.parse w (Route.raw_of request) = inr input
                    /\ Route.setupOrganisation w input = None)
  /\ (Route.url target = Route.redirect_url w "success=true" <-> Route.warnings calls = [])
  /\ (Route.url target <> Route.redirect_url w "success=true" ->
      exists error before, calls = before ++ [Route.LoggerWarn
                    "Could not setup organisation after Github redirection" error]
                    /\ Route.warnings before = []).
Proof.
  intros calls target. subst calls target.
  destruct (GET_cases w request)
    as [(paths & Hparse & ->) | [(input & e & Hparse & Hsetup & ->) | (input & Hparse & Hsetup & ->)]];
    cbn [fst snd Route.url Route.type Route.warnings omap list_omap].
  - split; [done|]. split; [auto|]. split; [|split].
    + split; [by intros H%redirect_url_inj|]. intros (input & Hinput & _). congruence.
    + split; [by intros H%redirect_url_inj | done].
    + intros _. by exists (Route.ZodError paths), [].
  - split; [done|]. split; [destruct (Route.is_unauthorized _); auto|]. split; [|split].
    + split; [intros H%redirect_url_inj; by destruct (Route.is_unauthorized _)|].
      intros (input' & Hinput & Hnone). congruence.
    + split; [intros H%redirect_url_inj; by destruct (Route.is_unauthorized _) | done].
    + intros _. by exists (Route.Thrown e), [Route.SetupOrganisation input].
  - split; [done|]. split; [auto|]. split; [|split]; [| done | done].
    split; [|done]. intros _. by exists input.
Qed.

(** X12. A request without the [installation_id] parameter, or without one
    of the two cookies, or with an empty region, never reaches
    [setupOrganisation]: the parse fails, the failure is logged, and the
    redirect is the internal-error one. *)
Theorem route_rejects_incomplete_request (w : Route.world) (request : Route.Request) :
  let calls := (Route.GET w request).1 in
  let target := (Route.GET w request).2 in
  Route.searchParams_get "installation_id" request = None
  \/ Route.cookie_value "organisation_id" request = None
  \/ Route.cookie_value "region" request = None
  \/ Route.cookie_value "region" request = Some "" ->
  Route.setup_inputs calls = []
  /\ Route.url target = Route.redirect_url w "error=internal_error"
  /\ exists paths, paths <> [] /\ Route.warnings calls = [Route.ZodError paths].
Proof.
  intros calls target Hmissing. subst calls target.
  assert (Hfail : forall input, Route.parse w (Route.raw_of request) <> inr input).
  { intros input Hparse. apply parse_inr in Hparse as (Ho & Hr & Hi).
    unfold Route.raw_of in *. cbn in Ho, Hr, Hi.
    destruct Hmissing as [H | [H | [H | H]]]; by rewrite H in *. }
  destruct (GET_cases w request)
    as [(paths & Hparse & ->) | [(input & e & Hparse & _) | (input & Hparse & _)]];
    [|by apply Hfail in Hparse..].
  cbn. split; [done|]. split; [done|]. exists paths. split; [|done].
  by apply parse_inl in Hparse as [Hne _].
Qed.

Lemma route_rejects_incomplete_request_witness :
  Route.searchParams_get "installation_id" Sample2.no_installation = None
  /\ Route.setup_inputs (Route.GET (Sample2.route_world None) Sample2.no_installation).1 = []
  /\ Route.url (Route.GET (Sample2.route_world None) Sample2.no_installation).2
     = "https://elba.test/redirect?source_id=source-id&error=internal_error".
Proof.
  split; [reflexivity|].
  destruct (route_rejects_incomplete_request (Sample2.route_world None)
              Sample2.no_installation (or_introl eq_refl)) as (Hsetup & Hurl & _).
  split; [exact Hsetup | exact Hurl].
Defined.

(** X13. The redirect is the unauthorized one exactly when the input passes
    the schema and [setupOrganisation] rejects with a [RequestError] whose
    response has status 401: a failed parse, and any other rejection, give
    the internal-error redirect. *)
Theorem route_unauthorized_iff (w : Route.world) (request : Route.Request) :
  let target := (Route.GET w request).2 in
  (Route.url target = Route.redirect_url w "error=unauthorized" <->
   exists input message status,
     Route.parse w (Route.raw_of request) = inr input
     /\ Route.setupOrganisation w input = Some (Js.RequestError message status (Some 401)))
  /\ (Route.url target = Route.redirect_url w "error=internal_error" <->
      (exists paths, Route.parse w (Route.raw_of request) = inl paths)
      \/ exists input e,
           Route.parse w (Route.raw_of request) = inr input
           /\ Route.setupOrganisation w input = Some e
           /\ forall message status, e <> Js.RequestError message status (Some 401)).
Proof.
  assert (Hclass : forall e,
            Route.is_unauthorized (Route.Thrown e) = true
            <-> exists message status, e = Js.RequestError message status (Some 401)).
  { intros e. split.
    - destruct e as [| | |m s [r|]|]; try done. cbn. intros ->%Z.eqb_eq. by exists m, s.
    - by intros (m & s & ->). }
  intros target. subst target.
  destruct (GET_cases w request)
    as [(paths & Hparse & ->) | [(input & e & Hparse & Hsetup & ->) | (input & Hparse & Hsetup & ->)]];
    cbn [snd Route.url].
  - split; split.
    + by intros H%redirect_url_inj.
    + intros (input & m & s & Hinput & _). congruence.
    + intros _. left. by exists paths.
    + done.
  - destruct (Route.is_unauthorized (Route.Thrown e)) eqn:Hun; split; split.
    + intros _. apply Hclass in Hun as (m & s & ->). by exists input, m, s.
    + done.
    + by intros H%redirect_url_inj.
    + intros [(paths & Hpaths) | (input' & e' & Hinput & Hsetup' & Hne)]; [congruence|].
      apply Hclass in Hun as (m & s & ->).
      assert (input' = input) as -> by congruence.
      rewrite Hsetup in Hsetup'. injection Hsetup' as <-. by destruct (Hne m s).
    + by intros H%redirect_url_inj.
    + intros (input' & m & s & Hinput & Hsetup').
      assert (input' = input) as -> by congruence.
      rewrite Hsetup in Hsetup'. injection Hsetup' as ->.
      assert (Htrue : Route.is_unauthorized (Route.Thrown (Js.RequestError m s (Some 401))) = true)
        by (apply Hclass; by exists m, s).
      congruence.
    + intros _. right. exists input, e. split; [done|]. split; [done|].
      intros m s ->. assert (Htrue : Route.is_unauthorized
                               (Route.Thrown (Js.RequestError m s (Some 401))) = true)
        by (apply Hclass; by exists m, s).
      congruence.
    + done.
  - split; split.
    + by intros H%redirect_url_inj.
    + intros (input' & m & s & Hinput & Hsetup'). congruence.
    + by intros H%redirect_url_inj.
    + intros [(paths & Hpaths) | (input' & e' & Hinput & Hsetup' & _)]; congruence.
Qed.

(** X14. [setupOrganisation] is called at most once, and only with an input
    that passed the schema: a positive integer installation id, which is
    the number the first [installation_id] parameter converts to; a
    non-empty region and an organisation id matching the uuid pattern, both
    as the cookies give them. *)
Theorem route_setup_input_is_valid (w : Route.world) (request : Route.Request)
    (input : Route.Input) :
  let calls := (Route.GET w request).1 in
  In input (Route.setup_inputs calls) ->
  Route.setup_inputs calls = [input]
  /\ 0 < Route.installationId input
  /\ (exists s, Route.searchParams_get "installation_id" request = Some s
                /\ Route.string_to_number w s = Route.Integer (Route.installationId input))
  /\ Route.cookie_value "region" request = Some (Route.region input)
  /\ Route.region input <> ""
  /\ Route.cookie_value "organisation_id" request = Some (Route.organisationId input)
  /\ Route.is_uuid w (Route.organisationId input) = true.
Proof.
  intros calls Hin. subst calls.
  assert (Hvalid : Route.parse w (Route.raw_of request) = inr input ->
            0 < Route.installationId input
            /\ (exists s, Route.searchParams_get "installation_id" request = Some s
                  /\ Route.string_to_number w s = Route.Integer (Route.installationId input))
            /\ Route.cookie_value "region" request = Some (Route.region input)
            /\ Route.region input <> ""
            /\ Route.cookie_value "organisation_id" request = Some (Route.organisationId input)
            /\ Route.is_uuid w (Route.organisationId input) = true).
  { intros (Ho & Hr & Hi)%parse_inr. unfold Route.raw_of in *. cbn in Ho, Hr, Hi.
    unfold Route.parse_organisationId in Ho. unfold Route.parse_region in Hr.
    unfold Route.parse_installationId, Route.coerce_number in Hi.
    destruct (Route.cookie_value "organisation_id" request) as [o|]; [|done].
    destruct (Route.is_uuid w o) eqn:Huuid; [|done]. injection Ho as <-.
    destruct (Route.cookie_value "region" request) as [r|]; [|done].
    destruct (Z.leb_spec 1 (Z.of_nat (String.length r))) as [Hlen|]; [|done].
    injection Hr as <-.
    destruct (Route.searchParams_get "installation_id" request) as [s|]; [|done].
    destruct (Route.string_to_number w s) as [z| | |] eqn:Hnumber; try done.
    destruct (Z.ltb_spec 0 z); [|done]. injection Hi as <-.
    split; [done|]. split; [by exists s|]. split; [done|]. split; [|done].
    intros ->. cbn in Hlen. lia. }
  destruct (GET_cases w request)
    as [(paths & Hparse & Heq) | [(input' & e & Hparse & _ & Heq) | (input' & Hparse & _ & Heq)]];
    rewrite Heq in *; cbn [fst Route.setup_inputs omap list_omap In] in *.
  - done.
  - destruct Hin as [<-|[]]. split; [done|]. by apply Hvalid.
  - destruct Hin as [<-|[]]. split; [done|]. by apply Hvalid.
Qed.

Lemma route_setup_input_is_valid_witness :
  Route.setup_inputs (Route.GET (Sample2.route_world None) Sample2.good_request).1 =
    [{| Route.organisationId := "45a76301-f1dd-4a77-b12f-9d7d3fca3c90";
        Route.region := "us"; Route.installationId := 42 |}]
  /\ Route.url (Route.GET (Sample2.route_world None) Sample2.good_request).2
     = "https://elba.test/redirect?source_id=source-id&success=true".
Proof.
  destruct (route_setup_input_is_valid (Sample2.route_world None) Sample2.good_request
              {| Route.organisationId := "45a76301-f1dd-4a77-b12f-9d7d3fca3c90";
                 Route.region := "us"; Route.installationId := 42 |})
    as (Hsetup & _); [left; reflexivity|].
  split; [exact Hsetup | reflexivity].
Defined.

(** ** C10: the watermark of a finalizing invocation *)


(** ** The worker when elba and the event API may reject *)

(** With a sink that resolves every call, the handler is [Worker.syncUsers]. *)
Lemma fallible_resolving (w : Worker.world) (event : Worker.Event) :
  Fallible.syncUsers w Fallible.resolving event = Worker.syncUsers w event.
Proof. reflexivity. Qed.

(** Unfolds a run down to the answers of the collaborators, and splits on
    each answer. *)
Ltac fallible_run :=
  cbv beta iota zeta delta
    [Fallible.syncUsers Fallible.elba_users_update Fallible.elba_users_delete
     Fallible.step_sendEvent Fallible.queued Worker.step_run Worker.db_select_token
     Worker.call_getUsers Worker.keeps_going Effect.bind Effect.perform Effect.ret
     Effect.throw Effect.calls Effect.outcome Date.of_date Date.toISOString fst snd];
  repeat (match goal with
          | |- context [Worker.select_token ?a ?b] =>
              destruct (Worker.select_token a b) eqn:?
          | |- context [Worker.getUsers ?a ?b ?c] => destruct (Worker.getUsers a b c) eqn:?
          | |- context [0 <? ?n] => destruct (0 <? n) eqn:?
          | |- context [Fallible.users_update ?a ?b ?c] =>
              destruct (Fallible.users_update a b c) as [?|[]] eqn:?
          | |- context [Js.truthy ?a] => destruct (Js.truthy a) eqn:?
          | |- context [Fallible.send_event ?a ?b ?c] =>
              destruct (Fallible.send_event a b c) as [?|[]] eqn:?
          | |- context [Date.of_number ?a] => destruct (Date.of_number a) eqn:?
          | |- context [Fallible.users_delete ?a ?b ?c] =>
              destruct (Fallible.users_delete a b c) as [?|[]] eqn:?
          end; cbv beta iota zeta).

(** X3. Whatever the world, the answers of elba and of the event API and
    the payload: an invocation makes at most one call that sends an event or
    deletes; when it returns "ongoing" it has sent one event and deleted
    nothing, when it returns "completed" it has made one delete call and
    sent nothing, and it returns nothing else; when it throws after a send
    or a delete call, it throws the rejection of that very call. *)
Theorem report_tells_effects (w : Worker.world) (s : Fallible.sink)
    (event : Worker.Event) :
  let run := Fallible.syncUsers w s event in
  let sent := Fallible.sends (Effect.calls run) in
  let deleted := Fallible.deletes (Effect.calls run) in
  (sent + deleted <= 1)%nat
  /\ (Effect.outcome run = inr {| Worker.status := "ongoing" |} ->
      sent = 1%nat /\ deleted = 0%nat)
  /\ (Effect.outcome run = inr {| Worker.status := "completed" |} ->
      deleted = 1%nat /\ sent = 0%nat)
  /\ (forall report, Effect.outcome run = inr report ->
        report = {| Worker.status := "ongoing" |}
        \/ report = {| Worker.status := "completed" |})
  /\ (forall e, Effect.outcome run = inl e ->
        (forall stepId next, In (Worker.SendEvent stepId next) (Effect.calls run) ->
           Fallible.send_event s stepId next = inl e)
        /\ (forall elba syncedBefore,
              In (Worker.ElbaUsersDelete elba syncedBefore) (Effect.calls run) ->
              Fallible.users_delete s elba syncedBefore = inl e)).
Proof.
  intros run sent deleted. subst run sent deleted.
  unfold Fallible.sends, Fallible.deletes. fallible_run.
  all: cbn [List.filter Worker.is_send Worker.is_delete length app Nat.add In].
  all: split; [lia|].
  all: split; [intros [=]; try done; split; reflexivity|].
  all: split; [intros [=]; try done; split; reflexivity|].
  all: split; [intros ? [= <-]; auto|].
  all: intros e' [= <-]; split; intros; intuition congruence.
Qed.

(** The events of a run that join the queue: none, or the continuation of
    the payload, from a run that keeps going. *)
Lemma fallible_queued (w : Worker.world) (s : Fallible.sink) (event : Worker.Event) :
  let run := Fallible.syncUsers w s event in
  Fallible.queued run = []
  \/ exists nextPage,
       Fallible.queued run = [Worker.continuation (Worker.data event) nextPage]
       /\ Worker.keeps_going (event, run).
Proof.
  intros run. subst run. fallible_run.
  all: cbn [Worker.emitted Worker.delete_args omap list_omap app]; try (by left).
  all: right; by eexists.
Qed.

(** An invocation makes at most one delete call. *)
Lemma fallible_deletes (w : Worker.world) (s : Fallible.sink) (event : Worker.Event) :
  (length (Worker.delete_args (Effect.calls (Fallible.syncUsers w s event))) <= 1)%nat.
Proof.
  fallible_run.
  all: cbn [Worker.delete_args omap list_omap app length]; lia.
Qed.

(** The deliveries that follow from one event: invocations that keep going,
    then at most one that queues nothing. *)
Lemma fallible_deliver_shape (w : Worker.world) (s : Fallible.sink) (fuel : nat) :
  forall event : Worker.Event,
    exists before rest,
      Fallible.deliver fuel w s [event] = before ++ rest
      /\ Forall Worker.keeps_going before
      /\ (rest = [] \/ exists last, rest = [(last, Fallible.syncUsers w s last)]).
Proof.
  induction fuel as [|fuel IH]; intros event.
  { exists [], []. split; [done|]. split; [by constructor | by left]. }
  cbn [Fallible.deliver]. destruct (decide _) as [Hname|Hname].
  - rewrite app_nil_l.
    destruct (fallible_queued w s event) as [Hnone | (nextPage & Hone & Hgoing)].
    + exists [], [(event, Fallible.syncUsers w s event)].
      rewrite Hnone. split; [by destruct fuel|]. split; [by constructor|].
      right. by exists event.
    + rewrite Hone.
      destruct (IH (Worker.continuation (Worker.data event) nextPage))
        as (before & rest & -> & Hbefore & Hrest).
      exists ((event, Fallible.syncUsers w s event) :: before), rest.
      split; [done|]. split; [by constructor | exact Hrest].
  - exists [], []. split; [by destruct fuel|]. split; [by constructor | by left].
Qed.


(** With a sink that resolves every call, the deliveries are those of
    [Worker.deliver]. *)
Lemma fallible_deliver_resolving (w : Worker.world) (fuel : nat) :
  forall queue : list Worker.Event,
    Fallible.deliver fuel w Fallible.resolving queue = Worker.deliver fuel w queue.
Proof.
  induction fuel as [|fuel IH]; intros [|ev rest]; cbn [Fallible.deliver Worker.deliver];
    try done.
  destruct (decide _); [|apply IH]. rewrite fallible_resolving. f_equal.
  rewrite <- IH. f_equal. f_equal.
  unfold Fallible.queued.
  destruct (emitted_syncUsers w ev) as [-> | [nextPage Hone]];
    [by destruct (Effect.outcome _)|].
  assert (Hsent : Worker.emitted (Effect.calls (Worker.syncUsers w ev)) <> [])
    by (by rewrite Hone).
  apply sending_keeps_going in Hsent as [_ Hout]. cbn [snd] in Hout. by rewrite Hout.
Qed.

(** A delete that rejects: the invocation throws that rejection with the
    delete call made, and it is the last delivery. *)
Example scenario_rejected_delete :
  let run := Fallible.syncUsers Sample.two_pages Sample3.rejecting_delete
               Sample.second_event in
  Effect.outcome run = inl (Js.Error "elba is down")
  /\ Worker.delete_args (Effect.calls run) = ["2023-11-14T22:13:20.000Z"]
  /\ length (Fallible.deliver 5 Sample.two_pages Sample3.rejecting_delete
               [Sample.first_event]) = 2%nat.
Proof. by repeat split. Qed.
